(** * newsletter_agent: the search adapter and the four-stage pipeline

    A shallow embedding of [web_search_tool.py] and of the class
    [NewsletterAgents] of [main.py].

    - Python [str] is [string]; [len] is [String.length], [s[:n]] is
      [Str.slice_to n s] (a negative [n] counts from the end, as in Python).
    - Python [int] is [Z]; lengths are [nat].
    - A dict whose keys are fixed by a literal of the source is a record
      with one optional field per key ([None]: the dict has no such key);
      the dict returned by [run_pipeline] and the attributes of an object
      are finite maps from names to values.
    - The remote services (the Exa search API, the clock, the completion
      agents of the karo library) are oracles of a [world]. The program
      threads a log through: every call of an oracle is recorded in it with
      its answer, together with what the program prints and shows, and
      every oracle sees the log so far.
    - An exception is the text [str(e)] of the exception; [try/except
      Exception] is [try_except]. Building the Exa client from a key, reading
      fields and writing to the console do not raise.
    - What an agent does inside one [run] (karo's code, which may call the
      search tool again) is not part of the log: a call of an agent is one
      event. *)

From Stdlib Require Import ZArith QArith Lia String Ascii List.
From stdpp Require Import base option list gmap strings pretty.

Local Open Scope string_scope.
Local Open Scope Z_scope.
Local Open Scope list_scope.

(** ** Text *)

Module Str.

Fixpoint take (n : nat) (s : string) : string :=
  match n, s with
  | S n', String a s' => String a (take n' s')
  | _, _ => ""
  end.

(** [s[:n]]: the first [n] characters, all of [s] when it is shorter; a
    negative [n] drops the last [-n] characters. *)
Definition slice_to (n : Z) (s : string) : string :=
  if (0 <=? n)%Z then take (Z.to_nat n) s
  else take (Z.to_nat (Z.of_nat (String.length s) + n)) s.

Definition is_empty (s : string) : bool :=
  match s with "" => true | String _ _ => false end.

(** [needle in s]. *)
Definition contains (needle s : string) : Prop :=
  ∃ before after, s = before +:+ needle +:+ after.

Definition starts_with (p s : string) : Prop := ∃ rest, s = p +:+ rest.

(** The line feed of a Python literal. *)
Definition nl : string := String (ascii_of_nat 10) "".

End Str.

(** ** Python values *)

Inductive pyval : Type :=
| PyNone
| PyBool (b : bool)
| PyInt (z : Z)
| PyStr (s : string).

Global Instance pyval_eq_dec : EqDecision pyval.
Proof. solve_decision. Defined.

(** [bool(v)] *)
Definition truthy (v : pyval) : bool :=
  match v with
  | PyNone => false
  | PyBool b => b
  | PyInt z => negb (z =? 0)%Z
  | PyStr s => negb (Str.is_empty s)
  end.

(** [str(v)], which is also how an f-string renders [{v}]. *)
Definition py_str (v : pyval) : string :=
  match v with
  | PyNone => "None"
  | PyBool true => "True"
  | PyBool false => "False"
  | PyInt z => pretty z
  | PyStr s => s
  end.

(** An [Optional[str]]: [None] is Python's [None]. *)
Definition of_optional (o : option string) : pyval :=
  match o with None => PyNone | Some s => PyStr s end.

(** [a or b] on optional text. *)
Definition py_or (a b : option string) : option string :=
  if truthy (of_optional a) then a else b.

(** An object: its attributes and its [str()]. *)
Record pyobject : Type := PyObject {
  attrs : gmap string pyval;
  repr : string
}.

Definition hasattr (o : pyobject) (name : string) : bool :=
  bool_decide (is_Some (attrs o !! name)).

Definition getattr (o : pyobject) (name : string) : pyval :=
  default PyNone (attrs o !! name).

(** ** Outcomes: a value, or an exception *)

Inductive outcome (A : Type) : Type :=
| Returned (a : A)
| Raised (e : string).
Global Arguments Returned {A} a.
Global Arguments Raised {A} e.

Definition is_raised {A} (o : outcome A) : bool :=
  match o with Raised _ => true | Returned _ => false end.

(** ** The Exa client *)

Module Exa.

(** The keyword arguments of [exa.search_and_contents], with the key the
    client was built with. *)
Record request : Type := Request {
  api_key : string;
  query : string;
  use_autoprompt : bool;
  start_published_date : string;
  num_results : Z;
  text_include_html_tags : bool;
  text_max_characters : Z
}.

(** One entry of [search_results.results]. [published_date] and [text] are
    [None] when the attribute is missing or holds [None]: the source reads
    them with [getattr(.., None)] and [hasattr(..) and ..], which do not
    tell the two apart. *)
Record Result : Type := MkResult {
  title : option string;
  url : string;
  published_date : option string;
  text : option string
}.

End Exa.

(** ** The karo agents *)

(** Which agent of [NewsletterAgents] a call goes to. *)
Inductive role : Type := Researcher | InsightsExpert | Writer | Editor.

Global Instance role_eq_dec : EqDecision role.
Proof. solve_decision. Defined.

Record OpenAIProviderConfig : Type := MkProviderConfig {
  model : string;
  provider_api_key : option string;
  tool_choice : option string;
  temperature : option Q
}.

Record SystemPromptBuilder : Type := MkPromptBuilder {
  role_description : string;
  core_instructions : string;
  output_instructions : string
}.

(** [self.api_key] of a [WebSearchTool]. *)
Record WebSearchTool : Type := MkWebSearchTool {
  tool_api_key : option string
}.

(** A keyword argument that is not passed is [None]. *)
Record BaseAgentConfig : Type := MkAgentConfig {
  provider_config : OpenAIProviderConfig;
  prompt_builder : SystemPromptBuilder;
  tools : option (list WebSearchTool);
  max_tool_call_attempts : option Z;
  tool_sys_msg : option string
}.

(** One entry of a [history] list: [{"role": .., "content": ..}]. *)
Record chat_entry : Type := ChatEntry {
  speaker : string;
  content : string
}.

(** ** Events and the world *)

(** The streamlit calls of [NewsletterAgents]. *)
Inductive st_call : Type := st_info | st_success | st_error | st_status.

Inductive event : Type :=
| EvSt (call : st_call) (shown : string)
| EvPrint (line : string)
| EvExaSearch (req : Exa.request) (out : outcome (list Exa.Result))
| EvAgentRun (who : role) (chat_message : string) (history : list chat_entry)
    (out : outcome pyobject).

(** What the program cannot decide itself. Every oracle sees the log so
    far, so the same request may be answered differently at different
    times.
    - [date_cutoff log days]:
      [(datetime.now() - timedelta(days=days)).strftime("%Y-%m-%d")], or the
      exception it raises;
    - [search_and_contents]: the remote search;
    - [agent_run]: [BaseAgent(config).run(input, history=history)]. *)
Record world : Type := World {
  date_cutoff : list event → Z → outcome string;
  search_and_contents : list event → Exa.request → outcome (list Exa.Result);
  agent_run : list event → role → BaseAgentConfig → string → list chat_entry →
              outcome pyobject
}.

(** ** The monad: a log, and exceptions *)

Definition M (A : Type) : Type := list event → outcome A * list event.

Global Instance M_ret : MRet M := λ A a log, (Returned a, log).

Global Instance M_bind : MBind M := λ A B f m log,
  match m log with
  | (Returned a, log') => f a log'
  | (Raised e, log') => (Raised e, log')
  end.

Definition emit (ev : event) : M unit := λ log, (Returned (), log ++ [ev]).

(** [try: body except Exception as e: handler(str(e))] *)
Definition try_except {A} (body : M A) (handler : string → M A) : M A := λ log,
  match body log with
  | (Returned a, log') => (Returned a, log')
  | (Raised e, log') => handler e log'
  end.

Definition lift {A} (o : outcome A) : M A := λ log, (o, log).

Definition print (line : string) : M unit := emit (EvPrint line).
Definition st (call : st_call) (shown : string) : M unit := emit (EvSt call shown).

(** * web_search_tool.py *)

(** The dict built for one result in [WebSearchTool.run]; it always has
    these four keys. [title] is whatever [result.title] holds. *)
Module WebSearchResult.
Record dict : Type := Dict {
  title : option string;
  url : string;
  published_date : option string;
  content_preview : option string
}.
End WebSearchResult.

(** The dicts returned by [WebSearchTool.run] and by [manual_search]. A
    field is [None] when the dict has no such key; for [error_message] and
    [results], [Some None] is the key present with the value [None]. *)
Module WebSearchOutput.
Record dict : Type := Dict {
  success : option bool;
  error_message : option (option string);
  results : option (option (list WebSearchResult.dict));
  search_query : option string;
  total_results_found : option nat
}.
End WebSearchOutput.

Record WebSearchInputSchema : Type := MkInput {
  search_query : string;
  days_ago : Z;
  max_results : Z;
  max_preview_chars : Z
}.

(** The defaults of the schema's fields. *)
Definition default_days_ago : Z := 7.
Definition default_max_results : Z := 5.
Definition default_max_preview_chars : Z := 500.

Definition ellipsis_marker : string := "...".

(** [WebSearchTool.__init__]: [api_key or os.getenv("EXA_API_KEY")]. *)
Definition WebSearchTool_init (environ : gmap string string)
    (api_key : option string) : WebSearchTool :=
  {| tool_api_key := py_or api_key (environ !! "EXA_API_KEY") |}.

(** Lines 99-102 of [run]: the preview of one result's text. *)
Definition content_preview_of (input_data : WebSearchInputSchema)
    (text : option string) : option string :=
  match text with
  | Some t =>
      if truthy (PyStr t) then
        let max_chars := max_preview_chars input_data in
        if (max_chars <? Z.of_nat (String.length t))%Z
        then Some (Str.slice_to max_chars t +:+ ellipsis_marker)
        else Some t
      else None
  | None => None
  end.

Definition format_result (input_data : WebSearchInputSchema)
    (result : Exa.Result) : WebSearchResult.dict :=
  let content_preview := content_preview_of input_data (Exa.text result) in
  {| WebSearchResult.title := Exa.title result;
     WebSearchResult.url := Exa.url result;
     WebSearchResult.published_date := Exa.published_date result;
     WebSearchResult.content_preview := content_preview |}.

(** The loop of lines 97-110: [formatted_results.append(..)] per result. *)
Definition format_results (input_data : WebSearchInputSchema)
    (search_results : list Exa.Result) : list WebSearchResult.dict :=
  fold_left (λ formatted_results result,
               formatted_results ++ [format_result input_data result])
            search_results [].

Definition no_key_message : string :=
  "No Exa API key available. Please provide an API key or set the EXA_API_KEY environment variable.".

Definition failure_dict (msg : string) : WebSearchOutput.dict :=
  {| WebSearchOutput.success := Some false;
     WebSearchOutput.error_message := Some (Some msg);
     WebSearchOutput.results := Some None;
     WebSearchOutput.search_query := None;
     WebSearchOutput.total_results_found := None |}.

(** The keyword arguments of the call at lines 88-94. *)
Definition search_call (exa_key : string) (input_data : WebSearchInputSchema)
    (date_cutoff : string) : Exa.request :=
  {| Exa.api_key := exa_key;
     Exa.query := search_query input_data;
     Exa.use_autoprompt := true;
     Exa.start_published_date := date_cutoff;
     Exa.num_results := max_results input_data;
     Exa.text_include_html_tags := false;
     Exa.text_max_characters := 5000 |}.

(** The dict of lines 115-121. *)
Definition success_dict (input_data : WebSearchInputSchema)
    (formatted_results : list WebSearchResult.dict) : WebSearchOutput.dict :=
  {| WebSearchOutput.success := Some true;
     WebSearchOutput.error_message := Some None;
     WebSearchOutput.results := Some (Some formatted_results);
     WebSearchOutput.search_query := Some (search_query input_data);
     WebSearchOutput.total_results_found := Some (length formatted_results) |}.

Definition searching_line (input_data : WebSearchInputSchema) : string :=
  "Searching for: '" +:+ search_query input_data +:+ "' (last "
  +:+ pretty (days_ago input_data) +:+ " days)".

Definition completed_line (formatted_results : list WebSearchResult.dict)
    : string :=
  "Search completed with " +:+ pretty (length formatted_results) +:+ " results".

Section Program.

Variable w : world.

Definition now_minus_days (days : Z) : M string := λ log,
  (date_cutoff w log days, log).

Definition exa_search_and_contents (req : Exa.request) : M (list Exa.Result) :=
  λ log,
  let out := search_and_contents w log req in
  (out, log ++ [EvExaSearch req out]).

Definition WebSearchTool_run (self : WebSearchTool)
    (input_data : WebSearchInputSchema) : M WebSearchOutput.dict :=
  try_except
    (if negb (truthy (of_optional (tool_api_key self))) then
       mret (failure_dict no_key_message)
     else
       let exa_key := default "" (tool_api_key self) in
       let days_ago := days_ago input_data in
       date_cutoff ← now_minus_days days_ago;
       print (searching_line input_data);;
       search_results ←
         exa_search_and_contents (search_call exa_key input_data date_cutoff);
       let formatted_results := format_results input_data search_results in
       print (completed_line formatted_results);;
       mret (success_dict input_data formatted_results))
    (λ e,
       let error_msg := "Error performing search: " +:+ e in
       print ("Search error: " +:+ error_msg);;
       mret (failure_dict error_msg)).

End Program.

(** * main.py: class NewsletterAgents *)

Record BaseAgent : Type := MkBaseAgent { config : BaseAgentConfig }.

Record NewsletterAgents : Type := MkNewsletterAgents {
  model_name : string;
  api_key : option string;
  exa_api_key : option string;
  web_search_tool : WebSearchTool;
  researcher : BaseAgent;
  insights_expert : BaseAgent;
  writer : BaseAgent;
  editor : BaseAgent
}.

Definition _create_researcher_agent (model_name : string)
    (api_key : option string) (web_search_tool : WebSearchTool) : BaseAgent :=
  let provider_config :=
    {| model := model_name; provider_api_key := api_key;
       tool_choice := Some "auto"; temperature := Some (1 # 10)%Q |} in
  let available_tools := [web_search_tool] in
  let prompt_builder :=
    {| role_description := "You are an AI Researcher tracking the latest advancements and trends in AI, machine learning, and deep learning.";
       core_instructions :=
         "Your PRIMARY task is to use the web_search_tool tool to find the latest information. "
         +:+ "THIS IS CRITICAL: You MUST make at least one call to the web_search_tool tool - it is your main job. "
         +:+ "Without using this tool, your response will be incomplete and outdated. "
         +:+ "After using the search tool, provide comprehensive research with reliable sources. "
         +:+ "Include exact search queries you used and summarize the most relevant findings.";
       output_instructions :=
         "1. FIRST: Call the web_search_tool tool with an appropriate query." +:+ Str.nl
         +:+ "2. THEN: Organize your findings into clear sections with source links." +:+ Str.nl
         +:+ "3. ALWAYS: Highlight the potential impact of each development." |} in
  MkBaseAgent
    {| provider_config := provider_config;
       prompt_builder := prompt_builder;
       tools := Some available_tools;
       max_tool_call_attempts := Some 5;
       tool_sys_msg := Some "You have access to the web_search_tool tool. You MUST use this tool to find information." |}.

Definition _create_insights_expert_agent (model_name : string)
    (api_key : option string) (web_search_tool : WebSearchTool) : BaseAgent :=
  let provider_config :=
    {| model := model_name; provider_api_key := api_key;
       tool_choice := Some "auto"; temperature := Some (1 # 10)%Q |} in
  let available_tools := [web_search_tool] in
  let prompt_builder :=
    {| role_description := "You are an AI Insights Expert with deep knowledge of the field of AI.";
       core_instructions :=
         "Your PRIMARY task is to use the web_search_tool tool to verify and expand upon the research provided. "
         +:+ "THIS IS CRITICAL: You MUST make at least one call to the web_search_tool tool - it is your main job. "
         +:+ "Without using this tool, your insights will be incomplete. "
         +:+ "After searching, provide detailed analysis on the significance, applications, and future potential of each development.";
       output_instructions :=
         "1. FIRST: Call the web_search_tool tool to verify and expand upon the research." +:+ Str.nl
         +:+ "2. THEN: Organize your analysis into clear sections." +:+ Str.nl
         +:+ "3. ALWAYS: Include potential industry implications and future directions." |} in
  MkBaseAgent
    {| provider_config := provider_config;
       prompt_builder := prompt_builder;
       tools := Some available_tools;
       max_tool_call_attempts := Some 5;
       tool_sys_msg := Some "You have access to the search_and_contents tool. You MUST use this tool to find information." |}.

Definition _create_writer_agent (model_name : string)
    (api_key : option string) : BaseAgent :=
  let provider_config :=
    {| model := model_name; provider_api_key := api_key;
       tool_choice := None; temperature := None |} in
  let prompt_builder :=
    {| role_description := "You are a Newsletter Content Creator with expertise in writing about AI technologies.";
       core_instructions :=
         "Transform insights from the AI Insights Expert into engaging and reader-friendly newsletter content about recent developments in AI, machine learning, and deep learning. "
         +:+ "Make complex topics accessible and engaging for a diverse audience. "
         +:+ "Transform the insights into reader-friendly content, highlighting the innovation, relevance, and potential impact of each development.";
       output_instructions := "Write in a professional yet engaging tone. Structure the content with clear headings and concise paragraphs. Keep the content aligned with the newsletter's goals." |} in
  MkBaseAgent
    {| provider_config := provider_config;
       prompt_builder := prompt_builder;
       tools := None;
       max_tool_call_attempts := None;
       tool_sys_msg := None |}.

Definition _create_editor_agent (model_name : string)
    (api_key : option string) : BaseAgent :=
  let provider_config :=
    {| model := model_name; provider_api_key := api_key;
       tool_choice := None; temperature := None |} in
  let prompt_builder :=
    {| role_description := "You are a meticulous Newsletter Editor for AI content.";
       core_instructions :=
         "Proofread, refine, and structure the newsletter to ensure it is ready for publication. "
         +:+ "Maintain professional tone while ensuring content is accessible to the target audience. "
         +:+ "Ensure clarity, eliminate errors, enhance readability, and align the tone with the newsletter's vision. "
         +:+ "Focus on improving flow, highlighting key insights effectively, and ensuring the newsletter engages the audience.";
       output_instructions := "Include valid website URLs to reliable sources for the advancements discussed. Format the newsletter with proper headings, bullet points, and paragraph spacing. Ensure all technical terms are adequately explained for the target audience." |} in
  MkBaseAgent
    {| provider_config := provider_config;
       prompt_builder := prompt_builder;
       tools := None;
       max_tool_call_attempts := None;
       tool_sys_msg := None |}.

(** [NewsletterAgents.__init__]; [environ] is [os.environ]. *)
Definition NewsletterAgents_init (environ : gmap string string)
    (model_name : string) (api_key exa_api_key : option string)
    : NewsletterAgents :=
  let exa_api_key := py_or exa_api_key (environ !! "EXA_API_KEY") in
  let web_search_tool := WebSearchTool_init environ exa_api_key in
  {| model_name := model_name;
     api_key := api_key;
     exa_api_key := exa_api_key;
     web_search_tool := web_search_tool;
     researcher := _create_researcher_agent model_name api_key web_search_tool;
     insights_expert :=
       _create_insights_expert_agent model_name api_key web_search_tool;
     writer := _create_writer_agent model_name api_key;
     editor := _create_editor_agent model_name api_key |}.

Definition default_model_name : string := "gpt-4-turbo".

Section Orchestration.

Variable w : world.

(** [self.<agent>.run(input, history=history)]: the call and its answer are
    logged under the agent's role. *)
Definition BaseAgent_run (who : role) (agent : BaseAgent)
    (chat_message : string) (history : list chat_entry) : M pyobject := λ log,
  let out := agent_run w log who (config agent) chat_message history in
  (out, log ++ [EvAgentRun who chat_message history out]).

(** [manual_search], with the bound method [self.web_search_tool.run] as
    the argument [run]. *)
Definition manual_search_via (run : WebSearchInputSchema → M WebSearchOutput.dict)
    (query : string) (days_ago : Z) : M WebSearchOutput.dict :=
  st st_info ("Searching for: '" +:+ query +:+ "'...");;
  let search_input :=
    {| search_query := query;
       days_ago := days_ago;
       max_results := 5;
       max_preview_chars := default_max_preview_chars |} in
  try_except
    (results ← run search_input;
     if default false (WebSearchOutput.success results) then
       st st_success
          ("Search successful: "
           +:+ pretty (default 0%nat (WebSearchOutput.total_results_found results))
           +:+ " results found");;
       mret results
     else
       let error_message :=
         default (Some "Unknown error") (WebSearchOutput.error_message results) in
       st st_error ("Search failed: " +:+ py_str (of_optional error_message));;
       mret {| WebSearchOutput.success := Some false;
               WebSearchOutput.error_message := Some error_message;
               WebSearchOutput.results := None;
               WebSearchOutput.search_query := None;
               WebSearchOutput.total_results_found := None |})
    (λ e,
       st st_error ("Search error: " +:+ e);;
       mret {| WebSearchOutput.success := Some false;
               WebSearchOutput.error_message := Some (Some e);
               WebSearchOutput.results := None;
               WebSearchOutput.search_query := None;
               WebSearchOutput.total_results_found := None |}).

Definition manual_search (self : NewsletterAgents) (query : string)
    (days_ago : Z) : M WebSearchOutput.dict :=
  manual_search_via (WebSearchTool_run w (web_search_tool self)) query days_ago.

End Orchestration.

(** ** The merged search context (lines 193-212 of [run_pipeline]) *)

Global Instance outcome_ret : MRet outcome := λ A a, Returned a.

Global Instance outcome_bind : MBind outcome := λ A B f o,
  match o with
  | Returned a => f a
  | Raised e => Raised e
  end.

(** [d.get('results', [])], then [len(..)] or iteration over it: a list
    when the key is missing or holds one, a [TypeError] when it holds
    [None]. *)
Definition results_or_empty (d : WebSearchOutput.dict)
    : outcome (list WebSearchResult.dict) :=
  match default (Some []) (WebSearchOutput.results d) with
  | Some l => Returned l
  | None => Raised "object of type 'NoneType' has no len()"
  end.

(** One pass of the loop body: the lines added for result number [i]
    (counted from 0). *)
Definition render_result (i : nat) (result : WebSearchResult.dict)
    (search_summary : string) : string :=
  let search_summary :=
    search_summary +:+ "[Result " +:+ pretty (i + 1)%nat +:+ "]" +:+ Str.nl in
  let search_summary :=
    search_summary +:+ "Title: "
    +:+ py_str (of_optional (WebSearchResult.title result)) +:+ Str.nl in
  let search_summary :=
    search_summary +:+ "URL: " +:+ WebSearchResult.url result +:+ Str.nl in
  let search_summary :=
    search_summary +:+ "Published: "
    +:+ py_str (of_optional (WebSearchResult.published_date result)) +:+ Str.nl in
  if truthy (of_optional (WebSearchResult.content_preview result)) then
    search_summary +:+ "Preview: "
    +:+ Str.slice_to 300 (default "" (WebSearchResult.content_preview result))
    +:+ "..." +:+ Str.nl +:+ Str.nl
  else search_summary.

(** [for i, result in enumerate(results)], from index [i] on. *)
Fixpoint render_results (i : nat) (results : list WebSearchResult.dict)
    (search_summary : string) : string :=
  match results with
  | [] => search_summary
  | result :: rest => render_results (S i) rest (render_result i result search_summary)
  end.

(** One of the two [if ..get("success"):] blocks. They differ only in the
    line feed that opens the header of the second one, [lead]. *)
Definition add_search (lead : string) (search_results : WebSearchOutput.dict)
    (search_summary : string) : outcome string :=
  if default false (WebSearchOutput.success search_results) then
    results ← results_or_empty search_results;
    let search_summary :=
      search_summary +:+ lead +:+ "Search for '"
      +:+ py_str (of_optional (WebSearchOutput.search_query search_results))
      +:+ "' found " +:+ pretty (length results) +:+ " results:"
      +:+ Str.nl +:+ Str.nl in
    mret (render_results 0 results search_summary)
  else mret search_summary.

Definition search_summary_header : string :=
  "SEARCH RESULTS:" +:+ Str.nl +:+ Str.nl.

Definition merge_search_results
    (primary_search_results secondary_search_results : WebSearchOutput.dict)
    : outcome string :=
  let search_summary := search_summary_header in
  search_summary ← add_search "" primary_search_results search_summary;
  add_search Str.nl secondary_search_results search_summary.

(** ** The four stages *)

(** The probe that follows every agent call: the first of the attributes
    [response_message], [content], [response_content] that the result
    has, else [str(result)]. *)
Definition response_text (result : pyobject) : pyval :=
  if hasattr result "response_message" then getattr result "response_message"
  else if hasattr result "content" then getattr result "content"
  else if hasattr result "response_content" then getattr result "response_content"
  else PyStr (repr result).

Definition research_message (user_input search_summary : string) : string :=
  "Research task: Analyze these search results about " +:+ user_input +:+ "."
  +:+ Str.nl +:+ Str.nl
  +:+ search_summary +:+ Str.nl +:+ Str.nl
  +:+ "Organize these findings into clear research with reliable sources. "
  +:+ "Include the significance of each development and its broader industry impact. "
  +:+ "If you need more specific information, use the search_and_contents tool with a specific query.".

Definition insights_message (user_input : string) (research_content : pyval)
    (search_summary : string) : string :=
  "Add insights to the following research about " +:+ user_input +:+ "."
  +:+ Str.nl +:+ Str.nl
  +:+ "Research to analyze:" +:+ Str.nl +:+ py_str research_content
  +:+ Str.nl +:+ Str.nl
  +:+ "Also consider these additional search results:" +:+ Str.nl
  +:+ Str.slice_to 1000 search_summary +:+ "..." +:+ Str.nl +:+ Str.nl
  +:+ "If you need any specific information, use the search_and_contents tool with a specific query.".

Definition writing_message (user_input : string) (insights_content : pyval)
    : string :=
  "Transform these insights about " +:+ user_input
  +:+ " into engaging newsletter content:" +:+ Str.nl +:+ Str.nl
  +:+ py_str insights_content.

Definition editing_message (user_input : string) (newsletter_draft : pyval)
    : string :=
  "Proofread and refine this newsletter draft about " +:+ user_input +:+ ". "
  +:+ "Ensure all sources are properly cited and the content is engaging and informative:"
  +:+ Str.nl +:+ Str.nl +:+ py_str newsletter_draft.

Section Pipeline.

Variable w : world.

Definition run_pipeline (self : NewsletterAgents) (user_input : string)
    : M (gmap string pyval) :=
  st st_status "Searching for recent developments...";;
  primary_search_results ←
    manual_search w self ("latest developments in " +:+ user_input) 7;
  secondary_search_results ←
    manual_search w self ("impact of " +:+ user_input) 14;
  search_summary ←
    lift (merge_search_results primary_search_results secondary_search_results);
  st st_status "Stage 1: Conducting research...";;
  let research_history :=
    [ChatEntry "user" (research_message user_input search_summary)] in
  let empty_input := "" in
  research_result ←
    BaseAgent_run w Researcher (researcher self) empty_input research_history;
  let research_content := response_text research_result in
  st st_status "Stage 2: Generating insights...";;
  let insights_history :=
    [ChatEntry "user" (insights_message user_input research_content search_summary)] in
  insights_result ←
    BaseAgent_run w InsightsExpert (insights_expert self) empty_input insights_history;
  let insights_content := response_text insights_result in
  st st_status "Stage 3: Creating newsletter draft...";;
  let writing_history :=
    [ChatEntry "user" (writing_message user_input insights_content)] in
  writing_result ←
    BaseAgent_run w Writer (writer self) empty_input writing_history;
  let newsletter_draft := response_text writing_result in
  st st_status "Stage 4: Editing and finalizing...";;
  let editing_history :=
    [ChatEntry "user" (editing_message user_input newsletter_draft)] in
  editing_result ←
    BaseAgent_run w Editor (editor self) empty_input editing_history;
  let final_newsletter := response_text editing_result in
  mret ({[ "research" := research_content;
           "insights" := insights_content;
           "draft" := newsletter_draft;
           "final" := final_newsletter ]} : gmap string pyval).

End Pipeline.

(** * Reading the log *)

Definition is_agent_run (ev : event) : bool :=
  match ev with EvAgentRun _ _ _ _ => true | _ => false end.

(** The agent calls of a log, in order. *)
Definition agent_events (log : list event) : list event :=
  List.filter is_agent_run log.

Definition agent_roles (log : list event) : list role :=
  omap (λ ev, match ev with EvAgentRun who _ _ _ => Some who | _ => None end) log.

(** The remote search requests of a log, in order. *)
Definition exa_requests (log : list event) : list Exa.request :=
  omap (λ ev, match ev with EvExaSearch req _ => Some req | _ => None end) log.

(** What streamlit was asked to show through [call]. *)
Definition st_shown (call : st_call) (log : list event) : list string :=
  omap (λ ev, match ev with
              | EvSt c shown =>
                  match call, c with
                  | st_info, st_info | st_success, st_success
                  | st_error, st_error | st_status, st_status => Some shown
                  | _, _ => None
                  end
              | _ => None
              end) log.

(** * The shape of the merged context *)

Module Block.

(** Concatenation of a list of texts. *)
Definition join (l : list string) : string := foldr String.append "" l.

(** What one pass of the rendering loop appends. *)
Definition of_result (i : nat) (result : WebSearchResult.dict) : string :=
  render_result i result "".

(** The blocks of a result list, numbered from [i]. *)
Fixpoint of_results (i : nat) (results : list WebSearchResult.dict)
    : list string :=
  match results with
  | [] => []
  | result :: rest => of_result i result :: of_results (S i) rest
  end.

(** The blocks that a response contributes to the merged context. *)
Definition rendered (d : WebSearchOutput.dict) : list string :=
  if default false (WebSearchOutput.success d)
  then of_results 0 (default [] (default (Some []) (WebSearchOutput.results d)))
  else [].

(** The line that announces a search in the merged context. *)
Definition heading (d : WebSearchOutput.dict) : string :=
  "Search for '" +:+ py_str (of_optional (WebSearchOutput.search_query d))
  +:+ "' found "
  +:+ pretty (length (default [] (default (Some []) (WebSearchOutput.results d))))
  +:+ " results:" +:+ Str.nl +:+ Str.nl.

(** The lines of one block, spelled out: index, title, url, publish date
    and, for a result that has one, the preview cut at 300 characters. *)
Definition lines (i : nat) (result : WebSearchResult.dict) : string :=
  "[Result " +:+ pretty (i + 1)%nat +:+ "]" +:+ Str.nl
  +:+ "Title: " +:+ py_str (of_optional (WebSearchResult.title result)) +:+ Str.nl
  +:+ "URL: " +:+ WebSearchResult.url result +:+ Str.nl
  +:+ "Published: "
  +:+ py_str (of_optional (WebSearchResult.published_date result)) +:+ Str.nl
  +:+ match WebSearchResult.content_preview result with
      | Some p =>
          if Str.is_empty p then ""
          else "Preview: " +:+ Str.slice_to 300 p +:+ "..." +:+ Str.nl +:+ Str.nl
      | None => ""
      end.

(** What a response adds to the merged context: nothing when the search
    failed, else [lead], the heading and the blocks. *)
Definition part (lead : string) (d : WebSearchOutput.dict) : string :=
  if default false (WebSearchOutput.success d)
  then lead +:+ heading d +:+ join (rendered d)
  else "".

End Block.

(** What [manual_search] can hand to the merging code: the dict of a
    successful tool run, or a two-key failure dict. *)
Definition search_dict_ok (d : WebSearchOutput.dict) : Prop :=
  (WebSearchOutput.success d = Some true
   ∧ WebSearchOutput.error_message d = Some None
   ∧ ∃ l, WebSearchOutput.results d = Some (Some l)
          ∧ WebSearchOutput.total_results_found d = Some (length l))
  ∨ (WebSearchOutput.success d = Some false
     ∧ WebSearchOutput.results d = None
     ∧ ∃ msg, WebSearchOutput.error_message d = Some (Some msg)).

(** A provider that honours the result cap: it never returns more results
    than [num_results] asks for. *)
Definition honours_num_results (w : world) : Prop :=
  ∀ log req found,
    search_and_contents w log req = Returned found →
    Z.of_nat (length found) ≤ Exa.num_results req.

(** * The runs of the search tool, as a relation

    [tool_run w self input log evs d]: called on [log], [WebSearchTool.run]
    appends the events [evs] and returns the dict [d]. *)

Inductive tool_run (w : world) (self : WebSearchTool)
    (input_data : WebSearchInputSchema) (log : list event)
    : list event → WebSearchOutput.dict → Prop :=
| key_missing :
    truthy (of_optional (tool_api_key self)) = false →
    tool_run w self input_data log [] (failure_dict no_key_message)
| clock_raises e :
    truthy (of_optional (tool_api_key self)) = true →
    date_cutoff w log (days_ago input_data) = Raised e →
    tool_run w self input_data log
      [EvPrint ("Search error: " +:+ "Error performing search: " +:+ e)]
      (failure_dict ("Error performing search: " +:+ e))
| search_raises cutoff e :
    let req := search_call (default "" (tool_api_key self)) input_data cutoff in
    let line := EvPrint (searching_line input_data) in
    truthy (of_optional (tool_api_key self)) = true →
    date_cutoff w log (days_ago input_data) = Returned cutoff →
    search_and_contents w (log ++ [line]) req = Raised e →
    tool_run w self input_data log
      [line; EvExaSearch req (Raised e);
       EvPrint ("Search error: " +:+ "Error performing search: " +:+ e)]
      (failure_dict ("Error performing search: " +:+ e))
| search_returns cutoff found :
    let req := search_call (default "" (tool_api_key self)) input_data cutoff in
    let line := EvPrint (searching_line input_data) in
    let formatted_results := format_results input_data found in
    truthy (of_optional (tool_api_key self)) = true →
    date_cutoff w log (days_ago input_data) = Returned cutoff →
    search_and_contents w (log ++ [line]) req = Returned found →
    tool_run w self input_data log
      [line; EvExaSearch req (Returned found);
       EvPrint (completed_line formatted_results)]
      (success_dict input_data formatted_results).

(** The input that [manual_search] builds. *)
Definition search_input (query : string) (days_ago : Z) : WebSearchInputSchema :=
  {| search_query := query;
     days_ago := days_ago;
     max_results := 5;
     max_preview_chars := default_max_preview_chars |}.

(** What [manual_search] makes of the tool's dict: the dict it hands on,
    and what it shows. *)
Definition handed_on (d : WebSearchOutput.dict) : WebSearchOutput.dict :=
  if default false (WebSearchOutput.success d) then d
  else {| WebSearchOutput.success := Some false;
          WebSearchOutput.error_message :=
            Some (default (Some "Unknown error") (WebSearchOutput.error_message d));
          WebSearchOutput.results := None;
          WebSearchOutput.search_query := None;
          WebSearchOutput.total_results_found := None |}.

Definition shown_after (d : WebSearchOutput.dict) : event :=
  if default false (WebSearchOutput.success d) then
    EvSt st_success
      ("Search successful: "
       +:+ pretty (default 0%nat (WebSearchOutput.total_results_found d))
       +:+ " results found")
  else
    EvSt st_error
      ("Search failed: "
       +:+ py_str (of_optional
             (default (Some "Unknown error") (WebSearchOutput.error_message d)))).

Definition status_0 : event :=
  EvSt st_status "Searching for recent developments...".

Definition searching_info (query : string) : event :=
  EvSt st_info ("Searching for: '" +:+ query +:+ "'...").

(** The events of one [manual_search]: the announcement, the events [evs]
    of the tool, and the report on its dict [d]. *)
Definition search_events (query : string) (evs : list event)
    (d : WebSearchOutput.dict) : list event :=
  [searching_info query] ++ evs ++ [shown_after d].

(** The merged context of two tool dicts. *)
Definition merged (dA dB : WebSearchOutput.dict) : string :=
  search_summary_header
  +:+ Block.part "" (handed_on dA) +:+ Block.part Str.nl (handed_on dB).

Definition primary_query (topic : string) : string :=
  "latest developments in " +:+ topic.

Definition secondary_query (topic : string) : string :=
  "impact of " +:+ topic.

(** * The runs of the four stages, as a relation

    [stages_run w self topic summary log evs o]: started on [log] with the
    merged context [summary], the stages append the events [evs] and end
    with [o]. A stage that raises ends the run; a stage that returns an
    object, whatever it holds, is followed by the next one. *)

Definition asked (who : role) (msg : string) (out : outcome pyobject) : event :=
  EvAgentRun who "" [ChatEntry "user" msg] out.

Definition answer (w : world) (log : list event) (who : role)
    (agent : BaseAgent) (msg : string) : outcome pyobject :=
  agent_run w log who (config agent) "" [ChatEntry "user" msg].

Definition status_1 : event := EvSt st_status "Stage 1: Conducting research...".
Definition status_2 : event := EvSt st_status "Stage 2: Generating insights...".
Definition status_3 : event := EvSt st_status "Stage 3: Creating newsletter draft...".
Definition status_4 : event := EvSt st_status "Stage 4: Editing and finalizing...".

Inductive stages_run (w : world) (self : NewsletterAgents)
    (topic summary : string) (log : list event)
    : list event → outcome (gmap string pyval) → Prop :=
| research_raises e :
    let m1 := research_message topic summary in
    answer w (log ++ [status_1]) Researcher (researcher self) m1 = Raised e →
    stages_run w self topic summary log
      [status_1; asked Researcher m1 (Raised e)] (Raised e)
| insights_raises r1 e :
    let m1 := research_message topic summary in
    let m2 := insights_message topic (response_text r1) summary in
    let evs1 := [status_1; asked Researcher m1 (Returned r1); status_2] in
    answer w (log ++ [status_1]) Researcher (researcher self) m1 = Returned r1 →
    answer w (log ++ evs1) InsightsExpert (insights_expert self) m2 = Raised e →
    stages_run w self topic summary log
      (evs1 ++ [asked InsightsExpert m2 (Raised e)]) (Raised e)
| writer_raises r1 r2 e :
    let m1 := research_message topic summary in
    let m2 := insights_message topic (response_text r1) summary in
    let m3 := writing_message topic (response_text r2) in
    let evs1 := [status_1; asked Researcher m1 (Returned r1); status_2] in
    let evs2 := evs1 ++ [asked InsightsExpert m2 (Returned r2); status_3] in
    answer w (log ++ [status_1]) Researcher (researcher self) m1 = Returned r1 →
    answer w (log ++ evs1) InsightsExpert (insights_expert self) m2 = Returned r2 →
    answer w (log ++ evs2) Writer (writer self) m3 = Raised e →
    stages_run w self topic summary log
      (evs2 ++ [asked Writer m3 (Raised e)]) (Raised e)
| editor_raises r1 r2 r3 e :
    let m1 := research_message topic summary in
    let m2 := insights_message topic (response_text r1) summary in
    let m3 := writing_message topic (response_text r2) in
    let m4 := editing_message topic (response_text r3) in
    let evs1 := [status_1; asked Researcher m1 (Returned r1); status_2] in
    let evs2 := evs1 ++ [asked InsightsExpert m2 (Returned r2); status_3] in
    let evs3 := evs2 ++ [asked Writer m3 (Returned r3); status_4] in
    answer w (log ++ [status_1]) Researcher (researcher self) m1 = Returned r1 →
    answer w (log ++ evs1) InsightsExpert (insights_expert self) m2 = Returned r2 →
    answer w (log ++ evs2) Writer (writer self) m3 = Returned r3 →
    answer w (log ++ evs3) Editor (editor self) m4 = Raised e →
    stages_run w self topic summary log
      (evs3 ++ [asked Editor m4 (Raised e)]) (Raised e)
| all_return r1 r2 r3 r4 :
    let m1 := research_message topic summary in
    let m2 := insights_message topic (response_text r1) summary in
    let m3 := writing_message topic (response_text r2) in
    let m4 := editing_message topic (response_text r3) in
    let evs1 := [status_1; asked Researcher m1 (Returned r1); status_2] in
    let evs2 := evs1 ++ [asked InsightsExpert m2 (Returned r2); status_3] in
    let evs3 := evs2 ++ [asked Writer m3 (Returned r3); status_4] in
    answer w (log ++ [status_1]) Researcher (researcher self) m1 = Returned r1 →
    answer w (log ++ evs1) InsightsExpert (insights_expert self) m2 = Returned r2 →
    answer w (log ++ evs2) Writer (writer self) m3 = Returned r3 →
    answer w (log ++ evs3) Editor (editor self) m4 = Returned r4 →
    stages_run w self topic summary log
      (evs3 ++ [asked Editor m4 (Returned r4)])
      (Returned {[ "research" := response_text r1;
                   "insights" := response_text r2;
                   "draft" := response_text r3;
                   "final" := response_text r4 ]}).

(** * Test doubles

    The end-to-end scenario of the specification: the 7-day search finds
    two results and the 14-day search one, and the four agents answer
    "R1", "I1", "D1" and "F1". *)

Module Scenario.

Definition topic : string := "quantum error correction".

Definition hit_1 : Exa.Result :=
  {| Exa.title := Some "Surface codes below threshold";
     Exa.url := "https://example.org/surface";
     Exa.published_date := Some "2025-06-09";
     Exa.text := Some "A logical qubit outlives its physical qubits." |}.

Definition hit_2 : Exa.Result :=
  {| Exa.title := None;
     Exa.url := "https://example.org/untitled";
     Exa.published_date := None;
     Exa.text := Some "" |}.

Definition hit_3 : Exa.Result :=
  {| Exa.title := Some "What error correction means for industry";
     Exa.url := "https://example.org/impact";
     Exa.published_date := Some "2025-06-03";
     Exa.text := None |}.

Definition clock (days : Z) : outcome string :=
  Returned (if days =? 7 then "2025-06-08" else "2025-06-01").

Definition found (req : Exa.request) : list Exa.Result :=
  if String.eqb (Exa.start_published_date req) "2025-06-08"
  then [hit_1; hit_2] else [hit_3].

(** An object as an agent returns it on success. *)
Definition says (text : string) : pyobject :=
  {| attrs := {[ "response_message" := PyStr text ]}; repr := "<output>" |}.

Definition reply (who : role) : pyobject :=
  says match who with
       | Researcher => "R1"
       | InsightsExpert => "I1"
       | Writer => "D1"
       | Editor => "F1"
       end.

Definition mock : world :=
  {| date_cutoff := λ _ days, clock days;
     search_and_contents := λ _ req, Returned (found req);
     agent_run := λ _ who _ _ _, Returned (reply who) |}.

Definition agents : NewsletterAgents :=
  NewsletterAgents_init ∅ default_model_name (Some "sk-test") (Some "exa-test").

Definition expected : gmap string pyval :=
  {[ "research" := PyStr "R1";
     "insights" := PyStr "I1";
     "draft" := PyStr "D1";
     "final" := PyStr "F1" ]}.

(** A result object that reports a failure: [success] is [False], there is
    an [error], and none of the three text attributes. *)
Definition failed : pyobject :=
  {| attrs := {[ "success" := PyBool false;
                 "error" := PyStr "rate limit exceeded" ]};
     repr := "success=False error='rate limit exceeded'" |}.

(** The same world, but the insights agent returns [failed]. *)
Definition insights_fail : world :=
  {| date_cutoff := λ _ days, clock days;
     search_and_contents := λ _ req, Returned (found req);
     agent_run := λ _ who _ _ _,
       Returned match who with InsightsExpert => failed | _ => reply who end |}.

(** The same world, but the insights agent raises. *)
Definition insights_raise : world :=
  {| date_cutoff := λ _ days, clock days;
     search_and_contents := λ _ req, Returned (found req);
     agent_run := λ _ who _ _ _,
       match who with
       | InsightsExpert => Raised "rate limit exceeded"
       | _ => Returned (reply who)
       end |}.

(** The same world, but every search finds six results, whatever
    [num_results] asks for. *)
Definition generous : world :=
  {| date_cutoff := λ _ days, clock days;
     search_and_contents := λ _ req,
       Returned [hit_1; hit_2; hit_3; hit_1; hit_2; hit_3];
     agent_run := λ _ who _ _ _, Returned (reply who) |}.

(** The same world, but the provider cuts what it found down to
    [num_results] entries, and refuses a negative [num_results]. *)
Definition capped : world :=
  {| date_cutoff := λ _ days, clock days;
     search_and_contents := λ _ req,
       if Exa.num_results req <? 0 then Raised "num_results must not be negative"
       else Returned (take (Z.to_nat (Exa.num_results req)) (found req));
     agent_run := λ _ who _ _ _, Returned (reply who) |}.

(** The same world, but the search provider cannot be reached. *)
Definition offline : world :=
  {| date_cutoff := λ _ days, clock days;
     search_and_contents := λ _ req, Raised "connection refused";
     agent_run := λ _ who _ _ _, Returned (reply who) |}.

(** A tool built without any key. *)
Definition keyless : WebSearchTool := WebSearchTool_init ∅ None.

End Scenario.

(** A result object that reports a failure. *)
Definition reports_failure (result : pyobject) : Prop :=
  attrs result !! "success" = Some (PyBool false).

(** An agent call that raised. *)
Definition raises (ev : event) : bool :=
  match ev with EvAgentRun _ _ _ out => is_raised out | _ => false end.

(** The order of the stages. *)
Definition stage_order : list role := [Researcher; InsightsExpert; Writer; Editor].

(** The texts of [st.status], in the order of the run. *)
Definition status_lines : list string :=
  ["Searching for recent developments...";
   "Stage 1: Conducting research...";
   "Stage 2: Generating insights...";
   "Stage 3: Creating newsletter draft...";
   "Stage 4: Editing and finalizing..."].

(** * main.py: function main

    [Shell.main] is [main] from line 338 on, where the values of the
    sidebar widgets are at hand, to its end at line 413. What the widgets
    return is an input ([widgets]). The calls that [main] itself makes on
    streamlit are kept in [shown], apart from the log of the pipeline;
    [os.environ] is part of the state. Whether an assignment to
    [os.environ] raises (Python refuses a value with a zero character, for
    one), the elapsed time, as [:.2f] prints it, and the answer of
    [st.download_button], which refuses data that is no text, come from the
    [front_end]. Of a widget that [main] creates only the label is kept,
    and a streamlit call other than [st.download_button] does not raise. *)

Module Shell.

(** [s.replace(a, b)] for single characters. *)
Fixpoint replace_char (a b : ascii) (s : string) : string :=
  match s with
  | "" => ""
  | String c s' => String (if Ascii.eqb c a then b else c) (replace_char a b s')
  end.

(** [a in s] for a single character. *)
Fixpoint has_char (a : ascii) (s : string) : bool :=
  match s with
  | "" => false
  | String c s' => Ascii.eqb c a || has_char a s'
  end.

Record widgets : Type := Widgets {
  openai_api_key : string;
  exa_api_key : string;
  model_name : string;
  topic : string;
  show_intermediate : bool;
  generate_btn : bool
}.

Inductive ui_call : Type :=
| Display (call : string) (body : pyval)
| Button (label : string) (disabled : bool)
| DownloadButton (label : string) (data : pyval) (file_name mime : string)
    (out : outcome unit).

Record screen : Type := Screen {
  environ : gmap string string;
  run_log : list event;
  shown : list ui_call
}.

Record front_end : Type := FrontEnd {
  putenv : string → string → outcome unit;
  elapsed : screen → string;
  download_button : screen → pyval → string → outcome unit
}.

Definition ShM (A : Type) : Type := screen → outcome A * screen.

Global Instance ShM_ret : MRet ShM := λ A a s, (Returned a, s).

Global Instance ShM_bind : MBind ShM := λ A B f m s,
  match m s with
  | (Returned a, s') => f a s'
  | (Raised e, s') => (Raised e, s')
  end.

Definition catching {A} (body : ShM A) (handler : string → ShM A) : ShM A := λ s,
  match body s with
  | (Returned a, s') => (Returned a, s')
  | (Raised e, s') => handler e s'
  end.

Definition call (c : ui_call) : ShM unit := λ s,
  (Returned (), {| environ := environ s; run_log := run_log s;
                   shown := shown s ++ [c] |}).

Definition show (name : string) (text : string) : ShM unit :=
  call (Display name (PyStr text)).

Definition os_environ : ShM (gmap string string) := λ s, (Returned (environ s), s).

(** A computation of the pipeline, run on the pipeline's log. *)
Definition of_run {A} (m : M A) : ShM A := λ s,
  let '(o, log) := m (run_log s) in
  (o, {| environ := environ s; run_log := log; shown := shown s |}).

(** [d[key]]; a missing key is a [KeyError]. *)
Definition getitem (d : gmap string pyval) (key : string) : ShM pyval := λ s,
  (match d !! key with
   | Some v => Returned v
   | None => Raised ("'" +:+ key +:+ "'")
   end, s).

Definition when (b : bool) (m : ShM unit) : ShM unit :=
  if b then m else mret ().

Definition nonempty (s : string) : bool := truthy (PyStr s).

Definition download_file_name (topic : string) : string :=
  "ai_newsletter_" +:+ replace_char " " "_" topic +:+ ".md".

Definition error_hint : string :=
  "Please check your API keys and internet connection and try again.".

(** The text of the About box, the literal of lines 403-412: it starts and
    ends with a line feed, every line is indented by eight spaces, and the
    first line ends with a space. The heart is kept as the bytes of its
    encoding. *)
Definition about_text : string :=
  Str.nl
  +:+ "        This app uses OpenAI models and the Exa search API to generate " +:+ Str.nl
  +:+ "        AI newsletters on any topic. It follows a 4-stage pipeline:" +:+ Str.nl
  +:+ "        1. Research" +:+ Str.nl
  +:+ "        2. Insights" +:+ Str.nl
  +:+ "        3. Writing" +:+ Str.nl
  +:+ "        4. Editing" +:+ Str.nl
  +:+ "        " +:+ Str.nl
  +:+ "        Made with ❤️ using Karo, Streamlit and GPT." +:+ Str.nl
  +:+ "        ".

Section Main.

Variable fe : front_end.
Variable w : world.

(** [os.environ[key] = value]: the variable is set, unless the assignment
    raises. *)
Definition setenv (key value : string) : ShM unit := λ s,
  match putenv fe key value with
  | Returned _ =>
      (Returned (), {| environ := <[key := value]> (environ s);
                       run_log := run_log s; shown := shown s |})
  | Raised e => (Raised e, s)
  end.

Definition time_taken : ShM string := λ s, (Returned (elapsed fe s), s).

Definition st_download_button (label : string) (data : pyval)
    (file_name mime : string) : ShM unit := λ s,
  let out := download_button fe s data file_name in
  (out, {| environ := environ s; run_log := run_log s;
           shown := shown s ++ [DownloadButton label data file_name mime out] |}).

(** The block under [with st.expander(label)]. *)
Definition expander_with (label : string) (result : gmap string pyval)
    (key : string) : ShM unit :=
  show "st.expander" label;;
  text ← getitem result key;
  call (Display "st.markdown" text).

(** The block under [if generate_btn and topic:] (lines 360-398). *)
Definition generate (ws : widgets) : ShM unit :=
  catching
    (environ ← os_environ;
     let agents :=
       NewsletterAgents_init environ (model_name ws)
         (Some (openai_api_key ws)) (Some (exa_api_key ws)) in
     show "st.spinner"
       ("Generating newsletter about '" +:+ topic ws
        +:+ "'... This may take a few minutes.");;
     result ← of_run (run_pipeline w agents (topic ws));
     time_taken ← time_taken;
     show "st.success"
       ("Newsletter generated in " +:+ time_taken +:+ " seconds!");;
     show "st.subheader" "Your AI Newsletter";;
     final ← getitem result "final";
     call (Display "st.markdown" final);;
     data ← getitem result "final";
     st_download_button "Download Newsletter (Markdown)" data
       (download_file_name (topic ws)) "text/markdown";;
     when (show_intermediate ws)
       (expander_with "Research Results" result "research";;
        expander_with "Insights Generated" result "insights";;
        expander_with "Draft Newsletter" result "draft"))
    (λ e,
       show "st.error" ("Error generating newsletter: " +:+ e);;
       show "st.error" error_hint).

Definition main (ws : widgets) : ShM unit :=
  when (nonempty (openai_api_key ws))
       (setenv "OPENAI_API_KEY" (openai_api_key ws));;
  when (nonempty (exa_api_key ws))
       (setenv "EXA_API_KEY" (exa_api_key ws));;
  when (negb (nonempty (openai_api_key ws)))
       (show "st.warning"
          "Please enter your OpenAI API key in the sidebar to continue.");;
  when (negb (nonempty (exa_api_key ws)))
       (show "st.warning"
          "Please enter your Exa API key in the sidebar to enable web search functionality.");;
  show "st.subheader" "Newsletter Topic";;
  show "st.text_input" "Enter a topic for your AI newsletter:";;
  show "st.expander" "Advanced Options";;
  show "st.checkbox" "Show intermediate results";;
  call (Button "Generate Newsletter"
          (negb (nonempty (topic ws) && nonempty (openai_api_key ws)
                 && nonempty (exa_api_key ws))));;
  when (generate_btn ws && nonempty (topic ws)) (generate ws);;
  show "st.sidebar.markdown" "---";;
  show "st.sidebar.subheader" "About";;
  show "st.sidebar.info" about_text.

End Main.

(** The platform takes the assignments to [os.environ] that [main] makes
    for the keys that were typed. *)
Definition accepted (fe : front_end) (ws : widgets) : Prop :=
  (openai_api_key ws ≠ "" →
   putenv fe "OPENAI_API_KEY" (openai_api_key ws) = Returned ())
  ∧ (exa_api_key ws ≠ "" →
     putenv fe "EXA_API_KEY" (exa_api_key ws) = Returned ()).

(** [os.environ] after the first assignment (lines 338-339). *)
Definition environ_openai (ws : widgets) (environ : gmap string string)
    : gmap string string :=
  if nonempty (openai_api_key ws)
  then <["OPENAI_API_KEY" := openai_api_key ws]> environ else environ.

(** [os.environ] after the two assignments of lines 338-341. *)
Definition environ_after (ws : widgets) (environ : gmap string string)
    : gmap string string :=
  let environ := environ_openai ws environ in
  if nonempty (exa_api_key ws)
  then <["EXA_API_KEY" := exa_api_key ws]> environ else environ.

(** What [main] shows before it looks at the button (lines 343-357). *)
Definition announced (ws : widgets) : list ui_call :=
  (if nonempty (openai_api_key ws) then []
   else [Display "st.warning"
           (PyStr "Please enter your OpenAI API key in the sidebar to continue.")])
  ++ (if nonempty (exa_api_key ws) then []
      else [Display "st.warning"
              (PyStr "Please enter your Exa API key in the sidebar to enable web search functionality.")])
  ++ [Display "st.subheader" (PyStr "Newsletter Topic");
      Display "st.text_input" (PyStr "Enter a topic for your AI newsletter:");
      Display "st.expander" (PyStr "Advanced Options");
      Display "st.checkbox" (PyStr "Show intermediate results");
      Button "Generate Newsletter"
        (negb (nonempty (topic ws) && nonempty (openai_api_key ws)
               && nonempty (exa_api_key ws)))].

(** The About box that ends [main] (lines 400-413). *)
Definition about : list ui_call :=
  [Display "st.sidebar.markdown" (PyStr "---");
   Display "st.sidebar.subheader" (PyStr "About");
   Display "st.sidebar.info" (PyStr about_text)].

(** The agents that [generate] builds in the environment [environ]. *)
Definition agents_of (ws : widgets) (environ : gmap string string)
    : NewsletterAgents :=
  NewsletterAgents_init environ (model_name ws)
    (Some (openai_api_key ws)) (Some (exa_api_key ws)).

(** The state when [main] reaches the button. *)
Definition at_button (ws : widgets) (s : screen) : screen :=
  {| environ := environ_after ws (environ s);
     run_log := run_log s;
     shown := shown s ++ announced ws |}.

Definition spinner (ws : widgets) : ui_call :=
  Display "st.spinner"
    (PyStr ("Generating newsletter about '" +:+ topic ws
            +:+ "'... This may take a few minutes.")).

(** The two errors of the [except] branch. *)
Definition errors (e : string) : list ui_call :=
  [Display "st.error" (PyStr ("Error generating newsletter: " +:+ e));
   Display "st.error" (PyStr error_hint)].

(** The three expanders of the intermediate results. *)
Definition intermediate (research insights draft : pyval) : list ui_call :=
  [Display "st.expander" (PyStr "Research Results"); Display "st.markdown" research;
   Display "st.expander" (PyStr "Insights Generated"); Display "st.markdown" insights;
   Display "st.expander" (PyStr "Draft Newsletter"); Display "st.markdown" draft].

(** The calls of a kind among those shown. *)
Definition shown_by (name : string) (l : list ui_call) : list pyval :=
  omap (λ c, match c with
             | Display n body => if String.eqb n name then Some body else None
             | _ => None
             end) l.


(** The scenario's front end: an environment that refuses a value with a
    zero character, as Python does, 12.34 seconds, and a download button
    that takes text only. *)
Definition plain : front_end :=
  {| putenv := λ _ value,
       if has_char "000" value then Raised "embedded null byte"
       else Returned ();
     elapsed := λ _, "12.34";
     download_button := λ _ data _,
       match data with
       | PyStr _ => Returned ()
       | _ => Raised "Invalid binary data format"
       end |}.

Definition blank : screen := {| environ := ∅; run_log := []; shown := [] |}.

(** Both keys and the scenario's topic typed, the box ticked, the button
    pressed. *)
Definition typed : widgets :=
  {| openai_api_key := "sk-test";
     exa_api_key := "exa-test";
     model_name := "gpt-4-turbo";
     topic := "quantum error correction";
     show_intermediate := true;
     generate_btn := true |}.

(** The same, but the Exa key that was typed holds a zero character. *)
Definition mistyped : widgets :=
  {| openai_api_key := "sk-test";
     exa_api_key := String "000" "exa-test";
     model_name := "gpt-4-turbo";
     topic := "quantum error correction";
     show_intermediate := true;
     generate_btn := true |}.

End Shell.

(** * Part II: lemmas and theorems *)

(** * Facts about text *)

Lemma str_app_cons a s t : String a s +:+ t = String a (s +:+ t).
Proof. reflexivity. Qed.

Lemma str_app_nil_l s : "" +:+ s = s.
Proof. reflexivity. Qed.

Lemma str_app_nil_r s : s +:+ "" = s.
Proof. induction s as [|a s IH]; [done|]. by rewrite str_app_cons, IH. Qed.

Lemma str_app_assoc s t u : (s +:+ t) +:+ u = s +:+ (t +:+ u).
Proof. induction s as [|a s IH]; [done|]. by rewrite !str_app_cons, IH. Qed.

Lemma str_length_app s t :
  String.length (s +:+ t) = (String.length s + String.length t)%nat.
Proof. induction s as [|a s IH]; [done|]. rewrite str_app_cons. simpl. by rewrite IH. Qed.

Lemma str_length_take n s :
  String.length (Str.take n s) = Nat.min n (String.length s).
Proof.
  revert s. induction n as [|n IH]; intros [|a s]; simpl; try done.
  by rewrite IH.
Qed.

Lemma str_take_all n s : (String.length s ≤ n)%nat → Str.take n s = s.
Proof.
  revert s. induction n as [|n IH]; intros [|a s]; simpl; try done; try lia.
  intros H. f_equal. apply IH. lia.
Qed.

Lemma str_take_prefix n s : ∃ rest, s = Str.take n s +:+ rest.
Proof.
  revert s. induction n as [|n IH]; intros s.
  - exists s. by destruct s.
  - destruct s as [|a s]; [by exists ""|].
    destruct (IH s) as [rest Hrest]. exists rest.
    simpl. rewrite str_app_cons. by f_equal.
Qed.

Lemma slice_to_nonneg n s : (0 ≤ n)%Z → Str.slice_to n s = Str.take (Z.to_nat n) s.
Proof. intros H. unfold Str.slice_to. by rewrite (proj2 (Z.leb_le 0 n) H). Qed.

Lemma slice_to_length n s :
  (0 ≤ n)%Z → (Z.of_nat (String.length (Str.slice_to n s)) ≤ n)%Z.
Proof. intros H. rewrite slice_to_nonneg, str_length_take by done. lia. Qed.

Lemma slice_to_prefix n s : ∃ rest, s = Str.slice_to n s +:+ rest.
Proof. unfold Str.slice_to. destruct (0 <=? n); apply str_take_prefix. Qed.

Lemma contains_here x a b : Str.contains x (a +:+ x +:+ b).
Proof. by exists a, b. Qed.

Lemma contains_end x a : Str.contains x (a +:+ x).
Proof. exists a, "". by rewrite str_app_nil_r. Qed.

Lemma contains_app_r x a s : Str.contains x s → Str.contains x (a +:+ s).
Proof.
  intros (p & q & ->). exists (a +:+ p), q. by rewrite str_app_assoc.
Qed.

(** * Facts about the log *)

Lemma agent_roles_app l1 l2 : agent_roles (l1 ++ l2) = agent_roles l1 ++ agent_roles l2.
Proof. apply omap_app. Qed.

Lemma agent_events_app l1 l2 :
  agent_events (l1 ++ l2) = agent_events l1 ++ agent_events l2.
Proof. apply List.filter_app. Qed.

Lemma exa_requests_app l1 l2 :
  exa_requests (l1 ++ l2) = exa_requests l1 ++ exa_requests l2.
Proof. apply omap_app. Qed.

Lemma st_shown_app c l1 l2 : st_shown c (l1 ++ l2) = st_shown c l1 ++ st_shown c l2.
Proof. apply omap_app. Qed.

(** * The search tool *)

Section ToolFacts.

Variable w : world.

Lemma WebSearchTool_run_spec self input_data log :
  ∃ evs d,
    WebSearchTool_run w self input_data log = (Returned d, log ++ evs)
    ∧ tool_run w self input_data log evs d.
Proof.
  unfold WebSearchTool_run, try_except.
  destruct (truthy (of_optional (tool_api_key self))) eqn:Hkey; simpl.
  - unfold mbind, M_bind, now_minus_days.
    destruct (date_cutoff w log (days_ago input_data)) as [cutoff|e] eqn:Hdate.
    + unfold print, emit, exa_search_and_contents.
      destruct (search_and_contents w (log ++ [EvPrint (searching_line input_data)])
                  (search_call (default "" (tool_api_key self)) input_data cutoff))
        as [found|e] eqn:Hsearch.
      * eexists _, _. split; [|by eapply search_returns].
        unfold mret, M_ret. by rewrite <- !app_assoc.
      * eexists _, _. split; [|by eapply search_raises].
        unfold mret, M_ret. by rewrite <- !app_assoc.
    + eexists _, _. split; [|by eapply clock_raises].
      reflexivity.
  - exists [], (failure_dict no_key_message). split.
    + by rewrite app_nil_r.
    + by apply key_missing.
Qed.

Lemma manual_search_spec self query days log :
  ∃ evs d,
    tool_run w (web_search_tool self) (search_input query days)
      (log ++ [searching_info query]) evs d
    ∧ manual_search w self query days log
      = (Returned (handed_on d),
         log ++ [searching_info query] ++ evs ++ [shown_after d]).
Proof.
  destruct (WebSearchTool_run_spec (web_search_tool self)
              (search_input query days) (log ++ [searching_info query]))
    as (evs & d & Hrun & Htool).
  exists evs, d. split; [done|].
  unfold manual_search, manual_search_via, try_except, mbind, M_bind, st, emit.
  fold (searching_info query). fold (search_input query days).
  rewrite Hrun. unfold handed_on, shown_after.
  destruct (default false (WebSearchOutput.success d)); simpl;
    unfold mret, M_ret; by rewrite <- !app_assoc.
Qed.

End ToolFacts.

(** * The merged context *)

Lemma block_of_result_lines i result : Block.of_result i result = Block.lines i result.
Proof.
  unfold Block.of_result, Block.lines, render_result.
  destruct (WebSearchResult.content_preview result) as [p|]; simpl.
  - destruct (Str.is_empty p); simpl;
      rewrite ?str_app_nil_l, ?str_app_assoc, ?str_app_nil_r; reflexivity.
  - rewrite ?str_app_nil_l, ?str_app_assoc, ?str_app_nil_r; reflexivity.
Qed.

Lemma render_result_app i result s :
  render_result i result s = s +:+ Block.of_result i result.
Proof.
  unfold Block.of_result, render_result.
  destruct (truthy (of_optional (WebSearchResult.content_preview result)));
    rewrite ?str_app_nil_l, ?str_app_assoc; reflexivity.
Qed.

Lemma render_results_app results : ∀ i s,
  render_results i results s = s +:+ Block.join (Block.of_results i results).
Proof.
  induction results as [|result rest IH]; intros i s; simpl.
  - by rewrite str_app_nil_r.
  - rewrite IH, render_result_app, str_app_assoc. reflexivity.
Qed.

Lemma block_of_results_length results : ∀ i,
  length (Block.of_results i results) = length results.
Proof. induction results as [|r rest IH]; intros i; simpl; [done|]. by rewrite IH. Qed.

Lemma add_search_ok lead d s :
  search_dict_ok d → add_search lead d s = Returned (s +:+ Block.part lead d).
Proof.
  unfold add_search, Block.part, results_or_empty, Block.rendered, Block.heading.
  intros [(Hs & _ & l & Hl & _)|(Hs & Hr & _)]; rewrite Hs; simpl.
  - rewrite Hl. simpl. unfold mret, outcome_ret.
    rewrite render_results_app, !str_app_assoc. reflexivity.
  - unfold mret, outcome_ret. by rewrite str_app_nil_r.
Qed.

Lemma merge_search_results_ok dA dB :
  search_dict_ok dA → search_dict_ok dB →
  merge_search_results dA dB
  = Returned (search_summary_header
              +:+ Block.part "" dA +:+ Block.part Str.nl dB).
Proof.
  intros HA HB. unfold merge_search_results.
  rewrite (add_search_ok "" dA _ HA). simpl.
  rewrite (add_search_ok Str.nl dB _ HB). by rewrite str_app_assoc.
Qed.

Lemma tool_run_handed_on_ok w self input_data log evs d :
  tool_run w self input_data log evs d → search_dict_ok (handed_on d).
Proof.
  destruct 1; unfold handed_on; simpl.
  1-3: right; repeat split; eauto.
  left. repeat split; eauto.
Qed.

Lemma BaseAgent_run_eq w who agent msg log :
  BaseAgent_run w who agent "" [ChatEntry "user" msg] log
  = (answer w log who agent msg, log ++ [asked who msg (answer w log who agent msg)]).
Proof. reflexivity. Qed.

Lemma M_bind_eq {A B} (f : A → M B) (m : M A) log :
  (m ≫= f) log
  = match m log with
    | (Returned a, log') => f a log'
    | (Raised e, log') => (Raised e, log')
    end.
Proof. reflexivity. Qed.

Lemma st_eq call shown log : st call shown log = (Returned (), log ++ [EvSt call shown]).
Proof. reflexivity. Qed.

Lemma stages_of_run_pipeline w self topic log :
  ∃ evsA dA evsB dB evs o,
    let q1 := primary_query topic in
    let q2 := secondary_query topic in
    let logA := log ++ [status_0] ++ search_events q1 evsA dA in
    let logB := logA ++ search_events q2 evsB dB in
    tool_run w (web_search_tool self) (search_input q1 7)
      (log ++ [status_0] ++ [searching_info q1]) evsA dA
    ∧ tool_run w (web_search_tool self) (search_input q2 14)
        (logA ++ [searching_info q2]) evsB dB
    ∧ stages_run w self topic (merged dA dB) logB evs o
    ∧ run_pipeline w self topic log = (o, logB ++ evs).
Proof.
  destruct (manual_search_spec w self ("latest developments in " +:+ topic) 7
              (log ++ [status_0])) as (evsA & dA & HtA & HmA).
  destruct (manual_search_spec w self ("impact of " +:+ topic) 14
              ((log ++ [status_0])
               ++ [searching_info ("latest developments in " +:+ topic)]
               ++ evsA ++ [shown_after dA]))
    as (evsB & dB & HtB & HmB).
  exists evsA, dA, evsB, dB.
  unfold search_events, primary_query, secondary_query. cbv zeta.
  rewrite <- !app_assoc in HtA.
  assert (Hlog : ∀ l1 l2 : list event,
            (log ++ [status_0]) ++ l1 ++ l2 = log ++ [status_0] ++ l1 ++ l2).
  { intros. by rewrite <- app_assoc. }
  rewrite Hlog in HmA.
  remember (log ++ [status_0]
              ++ [searching_info ("latest developments in " +:+ topic)]
              ++ evsA ++ [shown_after dA]) as logA eqn:HlogA.
  rewrite Hlog, <- HlogA in HtB, HmB.
  remember (logA ++ [searching_info ("impact of " +:+ topic)]
              ++ evsB ++ [shown_after dB]) as logB eqn:HlogB.
  assert (Hstages : ∃ evs o,
            stages_run w self topic (merged dA dB) logB evs o ∧
            run_pipeline w self topic log = (o, logB ++ evs)).
  2:{ destruct Hstages as (evs & o & H1 & H2). exists evs, o. auto. }
  unfold run_pipeline.
  rewrite M_bind_eq, st_eq. fold status_0.
  rewrite M_bind_eq, HmA. rewrite M_bind_eq, HmB.
  rewrite M_bind_eq. unfold lift.
  rewrite (merge_search_results_ok _ _ (tool_run_handed_on_ok _ _ _ _ _ _ HtA)
             (tool_run_handed_on_ok _ _ _ _ _ _ HtB)).
  fold (merged dA dB). clear.
  set (summary := merged dA dB).
  rewrite M_bind_eq, st_eq. fold status_1.
  rewrite M_bind_eq, BaseAgent_run_eq.
  destruct (answer w (logB ++ [status_1]) Researcher (researcher self)
              (research_message topic summary)) as [r1|e] eqn:H1.
  2:{ eexists _, _. split; [by apply research_raises|]. by rewrite <- !app_assoc. }
  rewrite M_bind_eq, st_eq. fold status_2.
  rewrite <- !app_assoc. cbn [app].
  rewrite M_bind_eq, BaseAgent_run_eq.
  match goal with |- context [answer w ?l InsightsExpert ?a ?m] =>
    destruct (answer w l InsightsExpert a m) as [r2|e] eqn:H2 end.
  2:{ eexists _, _. split; [by eapply insights_raises|].
      rewrite <- !app_assoc. reflexivity. }
  rewrite M_bind_eq, st_eq. fold status_3.
  rewrite <- !app_assoc. cbn [app].
  rewrite M_bind_eq, BaseAgent_run_eq.
  match goal with |- context [answer w ?l Writer ?a ?m] =>
    destruct (answer w l Writer a m) as [r3|e] eqn:H3 end.
  2:{ eexists _, _. split; [by eapply writer_raises|].
      rewrite <- !app_assoc. reflexivity. }
  rewrite M_bind_eq, st_eq. fold status_4.
  rewrite <- !app_assoc. cbn [app].
  rewrite M_bind_eq, BaseAgent_run_eq.
  match goal with |- context [answer w ?l Editor ?a ?m] =>
    destruct (answer w l Editor a m) as [r4|e] eqn:H4 end.
  2:{ eexists _, _. split; [by eapply editor_raises|].
      rewrite <- !app_assoc. reflexivity. }
  eexists _, _. split; [by eapply all_return|].
  rewrite <- !app_assoc. reflexivity.
Qed.

(** * Claims about the search tool *)

Lemma error_message_nonempty e : "Error performing search: " +:+ e ≠ "".
Proof.
  intros H. apply (f_equal String.length) in H.
  rewrite str_length_app in H. simpl in H. lia.
Qed.

Lemma format_results_map input_data found :
  format_results input_data found = map (format_result input_data) found.
Proof.
  unfold format_results.
  assert (∀ acc, fold_left
            (λ formatted_results result,
               formatted_results ++ [format_result input_data result]) found acc
          = acc ++ map (format_result input_data) found) as H.
  { induction found as [|r rest IH]; intros acc; simpl.
    - by rewrite app_nil_r.
    - rewrite IH, <- app_assoc. reflexivity. }
  apply H.
Qed.

Lemma format_results_length input_data found :
  length (format_results input_data found) = length found.
Proof. rewrite format_results_map. apply length_map. Qed.

(** C9. Every value returned by [WebSearchTool.run] is of one of two shapes:
    [success] is [True], [error_message] is [None], [results] is a list and
    [total_results_found] is its length; or [success] is [False],
    [error_message] is a non-empty text and [results] is [None]. So a
    populated list never comes with an error message. The run itself always
    returns. *)
Theorem WebSearchTool_run_invariant (w : world) (self : WebSearchTool)
    (input_data : WebSearchInputSchema) (log : list event) :
  ∃ d log',
    WebSearchTool_run w self input_data log = (Returned d, log')
    ∧ ((WebSearchOutput.success d = Some true
        ∧ WebSearchOutput.error_message d = Some None
        ∧ ∃ l, WebSearchOutput.results d = Some (Some l)
               ∧ WebSearchOutput.total_results_found d = Some (length l))
       ∨ (WebSearchOutput.success d = Some false
          ∧ WebSearchOutput.results d = Some None
          ∧ ∃ msg, WebSearchOutput.error_message d = Some (Some msg)
                   ∧ msg ≠ "")).
Proof.
  destruct (WebSearchTool_run_spec w self input_data log) as (evs & d & Hrun & Htool).
  exists d, (log ++ evs). split; [exact Hrun|].
  inversion Htool; subst; simpl.
  - right. repeat split. exists no_key_message. split; [reflexivity|discriminate].
  - right. repeat split. eexists. split; [reflexivity|apply error_message_nonempty].
  - right. repeat split. eexists. split; [reflexivity|apply error_message_nonempty].
  - left. repeat split. eexists. split; reflexivity.
Qed.

(** The remote requests of a tool run: none, or the one request built from
    the input and the cutoff date. *)
Lemma tool_run_requests w self input_data log evs d :
  tool_run w self input_data log evs d →
  (exa_requests evs = []
   ∧ WebSearchOutput.success d = Some false)
  ∨ (∃ cutoff,
       date_cutoff w log (days_ago input_data) = Returned cutoff
       ∧ truthy (of_optional (tool_api_key self)) = true
       ∧ exa_requests evs
         = [search_call (default "" (tool_api_key self)) input_data cutoff]).
Proof.
  destruct 1; simpl.
  - by left.
  - by left.
  - right. by exists cutoff.
  - right. by exists cutoff.
Qed.

(** C5, as the code has it. [WebSearchTool.run] never raises: it always
    returns a dict. A missing key gives the failure dict with the fixed
    message and no remote request; an exception of the clock or of the
    provider gives the failure dict whose message holds the exception's
    text. A call makes at most one remote request (no retry): exactly one
    when a key is there and the cutoff date was computed, none otherwise. *)
Theorem WebSearchTool_run_fails_softly (w : world) (self : WebSearchTool)
    (input_data : WebSearchInputSchema) (log : list event) :
  ∃ d evs,
    WebSearchTool_run w self input_data log = (Returned d, log ++ evs)
    ∧ (length (exa_requests evs) ≤ 1)%nat
    ∧ (truthy (of_optional (tool_api_key self)) = false →
       d = failure_dict no_key_message ∧ exa_requests evs = [])
    ∧ (∀ e, date_cutoff w log (days_ago input_data) = Raised e →
            truthy (of_optional (tool_api_key self)) = true →
            d = failure_dict ("Error performing search: " +:+ e)
            ∧ exa_requests evs = [])
    ∧ (∀ req e, EvExaSearch req (Raised e) ∈ evs →
                d = failure_dict ("Error performing search: " +:+ e))
    ∧ (∀ cutoff, date_cutoff w log (days_ago input_data) = Returned cutoff →
                 truthy (of_optional (tool_api_key self)) = true →
                 exa_requests evs
                 = [search_call (default "" (tool_api_key self)) input_data cutoff]).
Proof.
  destruct (WebSearchTool_run_spec w self input_data log) as (evs & d & Hrun & Htool).
  exists d, evs. split; [exact Hrun|].
  inversion Htool as [Hkey|e Hkey Hdate|cutoff e req line Hkey Hdate Hsearch
                     |cutoff found req line fr Hkey Hdate Hsearch]; subst;
    simpl; (split; [lia|]); (split; [intros; try congruence; by split|]);
    (split; [intros; try congruence; split; congruence|]); split.
  - intros req e Hin. by apply elem_of_nil in Hin.
  - congruence.
  - intros req e' Hin. apply list_elem_of_singleton in Hin. discriminate.
  - congruence.
  - intros req' e' Hin. rewrite !elem_of_cons in Hin.
    destruct Hin as [Hin|[Hin|[Hin|Hin]]]; try discriminate.
    + by inversion Hin.
    + by apply elem_of_nil in Hin.
  - intros c Hc _. assert (cutoff = c) as <- by congruence. reflexivity.
  - intros req' e' Hin. rewrite !elem_of_cons in Hin.
    destruct Hin as [Hin|[Hin|[Hin|Hin]]]; try discriminate.
    by apply elem_of_nil in Hin.
  - intros c Hc _. assert (cutoff = c) as <- by congruence. reflexivity.
Qed.

(** C5, as stated, fails: without a key the call makes no remote request at
    all, not exactly one. *)
Lemma WebSearchTool_run_without_key :
  WebSearchTool_run Scenario.mock Scenario.keyless (search_input "qubits" 7) []
  = (Returned (failure_dict no_key_message), [])
  ∧ length (exa_requests
      (WebSearchTool_run Scenario.mock Scenario.keyless
         (search_input "qubits" 7) []).2) ≠ 1%nat.
Proof. split; [reflexivity|]. vm_compute. discriminate. Qed.

(** C4, as the code has it. Let [max_preview_chars] be non-negative. A
    result whose text is missing or empty has no preview. For a result
    whose text is not empty: a text of at most [max_preview_chars]
    characters is its own preview; a longer one is cut to its first
    [max_preview_chars] characters, followed by the ellipsis marker; the
    preview is never longer than [max_preview_chars] plus the marker; and
    the text is cut exactly when it is longer than [max_preview_chars]. *)
Theorem content_preview_truncation (input_data : WebSearchInputSchema)
    (result : Exa.Result) :
  0 ≤ max_preview_chars input_data →
  let max_chars := max_preview_chars input_data in
  let preview :=
    WebSearchResult.content_preview (format_result input_data result) in
  (Exa.text result = None ∨ Exa.text result = Some "" → preview = None)
  ∧ ∀ t, Exa.text result = Some t → t ≠ "" →
      let cut := Str.take (Z.to_nat max_chars) t +:+ ellipsis_marker in
      (Z.of_nat (String.length t) ≤ max_chars → preview = Some t)
      ∧ (max_chars < Z.of_nat (String.length t) → preview = Some cut)
      ∧ (∃ p, preview = Some p
              ∧ Z.of_nat (String.length p)
                ≤ max_chars + Z.of_nat (String.length ellipsis_marker))
      ∧ (preview = Some cut ↔ max_chars < Z.of_nat (String.length t)).
Proof.
  intros Hmax max_chars preview. split.
  { unfold preview, format_result, content_preview_of. simpl.
    by intros [-> | ->]. }
  intros t Htext Hne cut.
  assert (Hp : preview
               = if max_chars <? Z.of_nat (String.length t) then Some cut else Some t).
  { unfold preview, format_result, content_preview_of. simpl. rewrite Htext.
    destruct t as [|a t']; [done|]. simpl.
    fold max_chars. destruct (max_chars <? _); [|done].
    unfold cut. by rewrite slice_to_nonneg. }
  assert (Hcut : String.length cut
                 = (Nat.min (Z.to_nat max_chars) (String.length t) + 3)%nat).
  { unfold cut. by rewrite str_length_app, str_length_take. }
  destruct (Z.ltb_spec max_chars (Z.of_nat (String.length t))) as [Hlt|Hge];
    rewrite Hp; repeat split.
  - intros. lia.
  - exists cut. split; [done|]. rewrite Hcut. simpl. lia.
  - intros _. exact Hlt.
  - intros. lia.
  - exists t. split; [done|]. simpl. lia.
  - intros Heq. exfalso.
    assert (String.length t = String.length cut) as Hl by congruence.
    rewrite Hcut in Hl. lia.
  - intros. lia.
Qed.

(** C4 at a text that is cut: ten characters are kept. *)
Lemma content_preview_truncation_witness :
  WebSearchResult.content_preview
    (format_result (MkInput "qubits" 7 5 10) Scenario.hit_1)
  = Some "A logical ...".
Proof.
  refine (proj1 (proj2 (proj2 (content_preview_truncation
                                 (MkInput "qubits" 7 5 10) Scenario.hit_1 _)
                          "A logical qubit outlives its physical qubits."
                          _ _)) _).
  - vm_compute. discriminate.
  - reflexivity.
  - discriminate.
  - vm_compute. reflexivity.
Defined.

(** C4, as stated, fails at a result whose text is empty: its length, 0, is
    at most [max_preview_chars], yet the preview is [None], not the text. *)
Lemma empty_text_has_no_preview :
  Exa.text Scenario.hit_2 = Some ""
  ∧ Z.of_nat (String.length "") ≤ max_preview_chars (search_input "qubits" 7)
  ∧ WebSearchResult.content_preview
      (format_result (search_input "qubits" 7) Scenario.hit_2) = None
  ∧ WebSearchResult.content_preview
      (format_result (search_input "qubits" 7) Scenario.hit_2) ≠ Some "".
Proof. repeat split; try reflexivity; vm_compute; discriminate. Qed.

(** * Claims about the pipeline *)

Lemma raises_is_agent_run ev : raises ev = true → is_agent_run ev = true.
Proof. by destruct ev. Qed.

Lemma shown_after_quiet d : is_agent_run (shown_after d) = false.
Proof. unfold shown_after. by destruct (default false _). Qed.

(** The events of a search are no agent calls. *)
Lemma search_events_quiet w self input_data log query evs d :
  tool_run w self input_data log evs d →
  Forall (λ ev, is_agent_run ev = false) (search_events query evs d).
Proof.
  intros Htool. unfold search_events.
  apply Forall_app. split; [by repeat constructor|].
  apply Forall_app. split.
  - destruct Htool; by repeat constructor.
  - repeat constructor. apply shown_after_quiet.
Qed.

Lemma quiet_agent_events l :
  Forall (λ ev, is_agent_run ev = false) l → agent_events l = [].
Proof.
  induction 1 as [|ev l Hev _ IH]; [done|].
  unfold agent_events in *. simpl. by rewrite Hev.
Qed.

Lemma quiet_agent_roles l :
  Forall (λ ev, is_agent_run ev = false) l → agent_roles l = [].
Proof.
  induction 1 as [|ev l Hev _ IH]; [done|].
  unfold agent_roles in *. by destruct ev.
Qed.

Lemma quiet_calm l :
  Forall (λ ev, is_agent_run ev = false) l → Forall (λ ev, raises ev = false) l.
Proof.
  intros H. eapply Forall_impl; [exact H|]. intros ev Hev. simpl in *.
  destruct (raises ev) eqn:Hr; [|done].
  apply raises_is_agent_run in Hr. congruence.
Qed.

(** Among events that did not raise there is no raising call. *)
Lemma calm_has_no_raise l before who m h e after :
  Forall (λ ev, raises ev = false) l →
  l ≠ before ++ EvAgentRun who m h (Raised e) :: after.
Proof.
  intros Hcalm ->. apply Forall_app in Hcalm as [_ Hcalm].
  by apply Forall_cons in Hcalm as [? _].
Qed.

(** After events that did not raise, a raising call can only be the last
    event. *)
Lemma raise_is_last pre x before who m h e after :
  Forall (λ ev, raises ev = false) pre →
  pre ++ [x] = before ++ EvAgentRun who m h (Raised e) :: after →
  after = [] ∧ x = EvAgentRun who m h (Raised e).
Proof.
  intros Hcalm Heq.
  destruct after as [|y after _] using rev_ind.
  - apply app_inj_tail in Heq as [_ ->]. done.
  - exfalso. rewrite app_comm_cons, app_assoc in Heq.
    apply app_inj_tail in Heq as [-> _].
    by eapply calm_has_no_raise in Hcalm.
Qed.

(** The events of a whole run: the search phase, then the stages. *)
Lemma run_pipeline_events w self topic log :
  ∃ evsA dA evsB dB evs pre,
    (run_pipeline w self topic log).2 = log ++ pre ++ evs
    ∧ pre = [status_0] ++ search_events (primary_query topic) evsA dA
                       ++ search_events (secondary_query topic) evsB dB
    ∧ Forall (λ ev, is_agent_run ev = false) pre
    ∧ tool_run w (web_search_tool self) (search_input (primary_query topic) 7)
        (log ++ [status_0] ++ [searching_info (primary_query topic)]) evsA dA
    ∧ tool_run w (web_search_tool self) (search_input (secondary_query topic) 14)
        ((log ++ [status_0] ++ search_events (primary_query topic) evsA dA)
         ++ [searching_info (secondary_query topic)]) evsB dB
    ∧ stages_run w self topic (merged dA dB) (log ++ pre) evs
        (run_pipeline w self topic log).1.
Proof.
  destruct (stages_of_run_pipeline w self topic log)
    as (evsA & dA & evsB & dB & evs & o & HtA & HtB & Hst & Hrun).
  cbv zeta in *.
  exists evsA, dA, evsB, dB, evs.
  exists ([status_0] ++ search_events (primary_query topic) evsA dA
                     ++ search_events (secondary_query topic) evsB dB).
  rewrite Hrun. cbn [fst snd].
  split; [|split; [reflexivity|]].
  { by rewrite <- !app_assoc. }
  split; [|split; [exact HtA|split; [exact HtB|]]].
  - apply Forall_app. split; [by repeat constructor|].
    apply Forall_app. split; by eapply search_events_quiet.
  - by rewrite <- !app_assoc in *.
Qed.

Lemma agent_events_quiet_app pre evs :
  Forall (λ ev, is_agent_run ev = false) pre →
  agent_events (pre ++ evs) = agent_events evs.
Proof. intros H. by rewrite agent_events_app, (quiet_agent_events _ H). Qed.

Lemma agent_roles_quiet_app pre evs :
  Forall (λ ev, is_agent_run ev = false) pre →
  agent_roles (pre ++ evs) = agent_roles evs.
Proof. intros H. by rewrite agent_roles_app, (quiet_agent_roles _ H). Qed.

(** C2. A run that completes returns a dict with exactly the keys
    [research], [insights], [draft] and [final]. After the two searches it
    called the researcher, the insights expert, the writer and the editor,
    in this order and each on the log as it stood; the objects [r1], [r2],
    [r3] and [r4] are what these four calls answered, and the dict holds
    their texts: [final] is the text of the editor's answer, [draft] that
    of the writer's. *)
Theorem pipeline_result_fields (w : world) (self : NewsletterAgents)
    (topic : string) (log : list event) (d : gmap string pyval) :
  (run_pipeline w self topic log).1 = Returned d →
  ∃ evsA dA evsB dB r1 r2 r3 r4,
    let q1 := primary_query topic in
    let q2 := secondary_query topic in
    let searching :=
      [status_0] ++ search_events q1 evsA dA ++ search_events q2 evsB dB in
    let summary := merged dA dB in
    let m1 := research_message topic summary in
    let m2 := insights_message topic (response_text r1) summary in
    let m3 := writing_message topic (response_text r2) in
    let m4 := editing_message topic (response_text r3) in
    let evs1 := [status_1; asked Researcher m1 (Returned r1)] in
    let evs2 := evs1 ++ [status_2; asked InsightsExpert m2 (Returned r2)] in
    let evs3 := evs2 ++ [status_3; asked Writer m3 (Returned r3)] in
    let evs4 := evs3 ++ [status_4; asked Editor m4 (Returned r4)] in
    (run_pipeline w self topic log).2 = log ++ searching ++ evs4
    ∧ tool_run w (web_search_tool self) (search_input q1 7)
        (log ++ [status_0] ++ [searching_info q1]) evsA dA
    ∧ tool_run w (web_search_tool self) (search_input q2 14)
        ((log ++ [status_0] ++ search_events q1 evsA dA) ++ [searching_info q2])
        evsB dB
    ∧ agent_run w (log ++ searching ++ [status_1]) Researcher
        (config (researcher self)) "" [ChatEntry "user" m1] = Returned r1
    ∧ agent_run w (log ++ searching ++ evs1 ++ [status_2]) InsightsExpert
        (config (insights_expert self)) "" [ChatEntry "user" m2] = Returned r2
    ∧ agent_run w (log ++ searching ++ evs2 ++ [status_3]) Writer
        (config (writer self)) "" [ChatEntry "user" m3] = Returned r3
    ∧ agent_run w (log ++ searching ++ evs3 ++ [status_4]) Editor
        (config (editor self)) "" [ChatEntry "user" m4] = Returned r4
    ∧ agent_events (searching ++ evs4)
      = [asked Researcher m1 (Returned r1);
         asked InsightsExpert m2 (Returned r2);
         asked Writer m3 (Returned r3);
         asked Editor m4 (Returned r4)]
    ∧ dom d = ({[ "research"; "insights"; "draft"; "final" ]} : gset string)
    ∧ d !! "research" = Some (response_text r1)
    ∧ d !! "insights" = Some (response_text r2)
    ∧ d !! "draft" = Some (response_text r3)
    ∧ d !! "final" = Some (response_text r4).
Proof.
  intros Hd.
  destruct (run_pipeline_events w self topic log)
    as (evsA & dA & evsB & dB & evs & pre & Hlog & Hpre & Hquiet & HtA & HtB & Hst).
  rewrite Hd in Hst.
  inversion Hst as [| | | |r1 r2 r3 r4 m1 m2 m3 m4 evs1 evs2 evs3 H1 H2 H3 H4 Hevs Hres].
  exists evsA, dA, evsB, dB, r1, r2, r3, r4. cbv zeta. rewrite <- Hpre.
  unfold answer in *. subst m1 m2 m3 m4 evs1 evs2 evs3.
  rewrite <- ?app_assoc in *. cbn [app] in *.
  split; [by rewrite Hlog, <- Hevs|].
  split; [exact HtA|]. split; [exact HtB|].
  split; [exact H1|]. split; [exact H2|]. split; [exact H3|]. split; [exact H4|].
  split.
  { rewrite agent_events_quiet_app by done. reflexivity. }
  split.
  { rewrite !dom_insert_L, dom_singleton_L. set_solver. }
  repeat split; by simplify_map_eq.
Qed.

(** C2 on the scenario of the specification: the run returns
    [{"research": "R1", "insights": "I1", "draft": "D1", "final": "F1"}],
    the editor answered "F1", and [final] holds it. *)
Lemma pipeline_result_fields_witness :
  (run_pipeline Scenario.mock Scenario.agents Scenario.topic []).1
  = Returned Scenario.expected
  ∧ dom Scenario.expected
    = ({[ "research"; "insights"; "draft"; "final" ]} : gset string)
  ∧ Scenario.expected !! "final"
    = Some (response_text (Scenario.reply Editor))
  ∧ Scenario.expected !! "final" = Some (PyStr "F1").
Proof.
  assert (H : (run_pipeline Scenario.mock Scenario.agents Scenario.topic []).1
              = Returned Scenario.expected) by (vm_compute; reflexivity).
  split; [exact H|].
  destruct (pipeline_result_fields _ _ _ _ _ H)
    as (evsA & dA & evsB & dB & r1 & r2 & r3 & r4
        & _ & _ & _ & _ & _ & _ & H4 & _ & Hdom & _ & _ & _ & Hfinal).
  split; [exact Hdom|].
  split; [|reflexivity].
  rewrite Hfinal. simpl in H4. by injection H4 as <-.
Defined.

(** The three facts about a run that ends with stage [who] raising [e],
    after the events [pre] of the search phase and [earlier] of the
    stages before it. *)
Ltac stage_raised pre earlier who m e Hcalm :=
  split; [|split];
  [ let Heq := fresh "Heq" in
    let Heq' := fresh "Heq" in
    intros ? ? ? ? ? ? Heq;
    assert (Heq' := Heq);
    change (pre ++ ?l = ?r) with (pre ++ earlier ++ [asked who m (Raised e)] = r) in Heq';
    rewrite app_assoc in Heq';
    apply raise_is_last in Heq' as [-> Heq'];
    [ split; [reflexivity|by inversion Heq']
    | apply Forall_app; split; [exact Hcalm|by repeat constructor] ]
  | let He := fresh "He" in
    intros ? He; inversion He; subst;
    exists (pre ++ earlier), who, "", [ChatEntry "user" m];
    by rewrite <- app_assoc
  | let Hno := fresh "Hno" in
    intros Hno; exfalso;
    specialize (Hno (asked who m (Raised e)));
    assert (raises (asked who m (Raised e)) = false); [|done];
    apply Hno; set_solver ].

(** C1, as the code has it. The agent calls of a run follow the order of
    the stages. A call that raises is the last event of the run: no later
    stage is invoked, and the run ends with that exception instead of a
    result. A run raises only in this way. When no call raises, whatever
    the returned objects hold, all four stages run and a result is
    returned. *)
Theorem stage_exception_ends_run (w : world) (self : NewsletterAgents)
    (topic : string) (log : list event) :
  ∃ evs,
    (run_pipeline w self topic log).2 = log ++ evs
    ∧ agent_roles evs `prefix_of` stage_order
    ∧ (∀ before who m h e after,
          evs = before ++ EvAgentRun who m h (Raised e) :: after →
          after = [] ∧ (run_pipeline w self topic log).1 = Raised e)
    ∧ (∀ e, (run_pipeline w self topic log).1 = Raised e →
            ∃ before who m h, evs = before ++ [EvAgentRun who m h (Raised e)])
    ∧ ((∀ ev, ev ∈ evs → raises ev = false) →
       ∃ d, (run_pipeline w self topic log).1 = Returned d
            ∧ agent_roles evs = stage_order).
Proof.
  destruct (run_pipeline_events w self topic log)
    as (evsA & dA & evsB & dB & evs & pre & Hlog & _ & Hquiet & _ & _ & Hst).
  exists (pre ++ evs). split; [exact Hlog|].
  rewrite agent_roles_quiet_app by done.
  pose proof (quiet_calm _ Hquiet) as Hcalm.
  destruct Hst as [e m1 H1
                  |r1 e m1 m2 evs1 H1 H2
                  |r1 r2 e m1 m2 m3 evs1 evs2 H1 H2 H3
                  |r1 r2 r3 e m1 m2 m3 m4 evs1 evs2 evs3 H1 H2 H3 H4
                  |r1 r2 r3 r4 m1 m2 m3 m4 evs1 evs2 evs3 H1 H2 H3 H4].
  - split; [by exists [InsightsExpert; Writer; Editor]|].
    stage_raised pre [status_1] Researcher m1 e Hcalm.
  - split; [by exists [Writer; Editor]|].
    stage_raised pre evs1 InsightsExpert m2 e Hcalm.
  - split; [by exists [Editor]|].
    stage_raised pre evs2 Writer m3 e Hcalm.
  - split; [by exists []|].
    stage_raised pre evs3 Editor m4 e Hcalm.
  - split; [by exists []|].
    split; [|split].
    + intros before who m h e' after Heq. exfalso.
      eapply calm_has_no_raise; [|exact Heq].
      apply Forall_app. split; [done|by repeat constructor].
    + intros e' He'. discriminate.
    + intros _. eexists. split; reflexivity.
Qed.

(** The scenario of the specification, run: two remote searches, with the
    cutoffs of 7 and of 14 days, then the four agents in order. *)
Example scenario_calls :
  exa_requests
    (run_pipeline Scenario.mock Scenario.agents Scenario.topic []).2
  = [search_call "exa-test"
       (search_input "latest developments in quantum error correction" 7)
       "2025-06-08";
     search_call "exa-test"
       (search_input "impact of quantum error correction" 14)
       "2025-06-01"]
  ∧ agent_roles
      (run_pipeline Scenario.mock Scenario.agents Scenario.topic []).2
    = stage_order.
Proof. split; vm_compute; reflexivity. Qed.

(** C1, as stated, fails: the insights agent returns an object that
    reports a failure ([success] is [False]), and still the writer and the
    editor are invoked and a complete result is returned, with the
    object's [str()] as the insights. *)
Lemma failed_insights_do_not_stop :
  reports_failure Scenario.failed
  ∧ (∃ m, agent_events
            (run_pipeline Scenario.insights_fail Scenario.agents
               Scenario.topic []).2 !! 1%nat
          = Some (asked InsightsExpert m (Returned Scenario.failed)))
  ∧ agent_roles
      (run_pipeline Scenario.insights_fail Scenario.agents Scenario.topic []).2
    = [Researcher; InsightsExpert; Writer; Editor]
  ∧ (run_pipeline Scenario.insights_fail Scenario.agents Scenario.topic []).1
    = Returned {[ "research" := PyStr "R1";
                  "insights" := PyStr "success=False error='rate limit exceeded'";
                  "draft" := PyStr "D1";
                  "final" := PyStr "F1" ]}.
Proof.
  split; [reflexivity|]. split; [eexists; vm_compute; reflexivity|].
  split; vm_compute; reflexivity.
Qed.

(** When the insights agent raises instead, the run stops there. *)
Example raised_insights_stop :
  agent_roles
    (run_pipeline Scenario.insights_raise Scenario.agents Scenario.topic []).2
  = [Researcher; InsightsExpert]
  ∧ (run_pipeline Scenario.insights_raise Scenario.agents Scenario.topic []).1
    = Raised "rate limit exceeded".
Proof. split; vm_compute; reflexivity. Qed.

Lemma block_of_results_lookup results : ∀ i k r,
  results !! k = Some r →
  Block.of_results i results !! k = Some (Block.lines (i + k) r).
Proof.
  induction results as [|r0 rest IH]; intros i k r Hk; [done|].
  destruct k as [|k]; simpl in *.
  - inversion Hk; subst. rewrite Nat.add_0_r. f_equal. apply block_of_result_lines.
  - rewrite (IH (S i) k r Hk). do 2 f_equal. lia.
Qed.

(** What a dict handed on by [manual_search] adds to the merged context. *)
Lemma handed_on_part w self input_data log evs d lead :
  tool_run w self input_data log evs d →
  (WebSearchOutput.success (handed_on d) = Some true
   ∧ ∃ l, WebSearchOutput.results (handed_on d) = Some (Some l)
          ∧ WebSearchOutput.total_results_found (handed_on d) = Some (length l)
          ∧ Block.part lead (handed_on d)
            = lead +:+ Block.heading (handed_on d)
              +:+ Block.join (Block.rendered (handed_on d))
          ∧ length (Block.rendered (handed_on d)) = length l
          ∧ ∀ i r, l !! i = Some r →
                   Block.rendered (handed_on d) !! i = Some (Block.lines i r))
  ∨ (WebSearchOutput.success (handed_on d) = Some false
     ∧ WebSearchOutput.success d = Some false
     ∧ Block.rendered (handed_on d) = []
     ∧ Block.part lead (handed_on d) = "").
Proof.
  destruct 1; [right|right|right|left]; try by repeat split.
  split; [done|]. eexists. split; [reflexivity|]. split; [reflexivity|].
  split; [reflexivity|]. split.
  - apply block_of_results_length.
  - intros i r Hi. apply (block_of_results_lookup _ 0 i r Hi).
Qed.

(** A provider that honours the cap gives a tool run at most
    [max_results] results. *)
Lemma tool_run_capped w self input_data log evs d l :
  honours_num_results w →
  tool_run w self input_data log evs d →
  WebSearchOutput.results d = Some (Some l) →
  Z.of_nat (length l) ≤ max_results input_data.
Proof.
  intros Hcap Htool Hl. destruct Htool; try discriminate Hl.
  injection Hl as <-. subst formatted_results.
  rewrite format_results_length.
  match goal with H : search_and_contents _ _ _ = _ |- _ => apply Hcap in H as Hle end.
  exact Hle.
Qed.

(** C8. With a provider that honours the result cap, a successful search
    that [manual_search] hands to the merging code adds
    [min(max_results, total_results_found)] blocks to the merged context,
    one per entry of its [results] list and in the list's order; a failed
    search adds no block, and nothing at all. The response is what the
    tool's run on the world returned, as [manual_search] hands it on. *)
Theorem rendered_blocks_follow_results (w : world) (self : NewsletterAgents)
    (query : string) (days : Z) (log : list event) :
  honours_num_results w →
  ∃ evs d,
    let response := handed_on d in
    tool_run w (web_search_tool self) (search_input query days)
      (log ++ [searching_info query]) evs d
    ∧ manual_search w self query days log
      = (Returned response, log ++ search_events query evs d)
    ∧ ∀ lead s,
        add_search lead response s = Returned (s +:+ Block.part lead response)
        ∧ ((WebSearchOutput.success response = Some true
            ∧ ∃ l total_found,
                WebSearchOutput.results response = Some (Some l)
                ∧ WebSearchOutput.total_results_found response = Some total_found
                ∧ total_found = length l
                ∧ Block.part lead response
                  = lead +:+ Block.heading response
                    +:+ Block.join (Block.rendered response)
                ∧ Z.of_nat (length (Block.rendered response))
                  = Z.min (max_results (search_input query days))
                          (Z.of_nat total_found)
                ∧ ∀ i r, l !! i = Some r →
                         Block.rendered response !! i = Some (Block.lines i r))
           ∨ (WebSearchOutput.success response = Some false
              ∧ Block.rendered response = []
              ∧ Block.part lead response = "")).
Proof.
  intros Hcap.
  destruct (manual_search_spec w self query days log) as (evs & d & Htool & Hrun).
  exists evs, d. cbv zeta. split; [exact Htool|]. split; [exact Hrun|].
  intros lead s. split.
  { apply add_search_ok. by eapply tool_run_handed_on_ok. }
  destruct (handed_on_part _ _ _ _ _ _ lead Htool)
    as [(Hs & l & Hl & Ht & Hp & Hn & Hb)|(Hs & _ & Hr & Hp)].
  - left. split; [done|]. exists l, (length l).
    split; [done|]. split; [done|]. split; [done|]. split; [done|].
    split; [|done].
    assert (WebSearchOutput.results d = Some (Some l)) as Hd.
    { unfold handed_on in Hl, Hs.
      destruct (default false (WebSearchOutput.success d)); [done|discriminate Hs]. }
    pose proof (tool_run_capped _ _ _ _ _ _ _ Hcap Htool Hd). lia.
  - right. done.
Qed.

Lemma capped_honours_num_results : honours_num_results Scenario.capped.
Proof.
  intros log req found. simpl.
  destruct (Z.ltb_spec (Exa.num_results req) 0) as [|Hn]; [discriminate|].
  intros [= <-]. rewrite length_take. lia.
Qed.

(** C8 on a provider that honours the cap: the 7-day search of the scenario
    finds two results, and two blocks are rendered, [min(5, 2)]. *)
Lemma rendered_blocks_follow_results_witness :
  honours_num_results Scenario.capped
  ∧ ∃ response log,
      manual_search Scenario.capped Scenario.agents
        (primary_query Scenario.topic) 7 [] = (Returned response, log)
      ∧ WebSearchOutput.success response = Some true
      ∧ WebSearchOutput.total_results_found response = Some 2%nat
      ∧ Z.of_nat (length (Block.rendered response)) = Z.min 5 2.
Proof.
  split; [exact capped_honours_num_results|].
  destruct (rendered_blocks_follow_results Scenario.capped Scenario.agents
              (primary_query Scenario.topic) 7 [] capped_honours_num_results)
    as (evs & d & _ & Hrun & _).
  remember (handed_on d) as response eqn:Hresponse. clear Hresponse.
  exists response, ([] ++ search_events (primary_query Scenario.topic) evs d).
  split; [exact Hrun|].
  assert (Hd : (manual_search Scenario.capped Scenario.agents
                  (primary_query Scenario.topic) 7 []).1 = Returned response)
    by (by rewrite Hrun).
  vm_compute in Hd. injection Hd as <-.
  repeat split; reflexivity.
Defined.

(** The hypothesis of C8 is needed, for the code has no cap of its own: a
    provider that returns six results to a request for five gives six
    blocks. *)
Example six_blocks_for_five :
  ¬ honours_num_results Scenario.generous
  ∧ ∃ d log,
      manual_search Scenario.generous Scenario.agents
        (primary_query Scenario.topic) 7 [] = (Returned d, log)
      ∧ WebSearchOutput.success d = Some true
      ∧ WebSearchOutput.total_results_found d = Some 6%nat
      ∧ max_results (search_input (primary_query Scenario.topic) 7) = 5
      ∧ length (Block.rendered d) = 6%nat.
Proof.
  split.
  - intros Hcap.
    specialize (Hcap [] (search_call "" (search_input "" 7) "") _ eq_refl).
    simpl in Hcap. lia.
  - eexists _, _. split; [vm_compute; reflexivity|].
    repeat split; reflexivity.
Qed.

Lemma stages_run_starts w self topic summary log evs o :
  stages_run w self topic summary log evs o →
  ∃ out rest,
    evs = status_1 :: asked Researcher (research_message topic summary) out :: rest.
Proof. destruct 1; by eexists _, _. Qed.

Lemma tool_run_shows_nothing w self input_data log evs d call :
  tool_run w self input_data log evs d → st_shown call evs = [].
Proof. by destruct 1. Qed.

Lemma search_events_info w self input_data log query evs d :
  tool_run w self input_data log evs d →
  st_shown st_info (search_events query evs d)
  = ["Searching for: '" +:+ query +:+ "'..."].
Proof.
  intros Htool. unfold search_events.
  rewrite !st_shown_app, (tool_run_shows_nothing _ _ _ _ _ _ _ Htool).
  unfold shown_after. by destruct (default false _).
Qed.

Lemma search_events_requests w self input_data log query evs d :
  tool_run w self input_data log evs d →
  exa_requests (search_events query evs d) = exa_requests evs.
Proof.
  intros _. unfold search_events.
  rewrite !exa_requests_app. unfold shown_after.
  destruct (default false _); simpl; by rewrite app_nil_r.
Qed.

(** C3. Before stage 1 a run does two searches and nothing else: it
    announces and runs the tool on "latest developments in {topic}" with
    [days_ago = 7], then on "impact of {topic}" with [days_ago = 14] (both
    with [max_results = 5]); every remote request made on the way carries
    that query, that cutoff and that cap. The researcher is then called with
    the message built from the merged context, which is the header followed
    by what each successful search adds: its heading and one block per
    result, block [i] holding the index [i + 1], the title, the url, the
    publish date and the preview of the result. *)
Theorem two_searches_before_research (w : world) (self : NewsletterAgents)
    (topic : string) (log : list event) :
  ∃ evsA dA evsB dB evs,
    let q1 := "latest developments in " +:+ topic in
    let q2 := "impact of " +:+ topic in
    let searching :=
      [status_0] ++ search_events q1 evsA dA ++ search_events q2 evsB dB in
    (run_pipeline w self topic log).2 = log ++ searching ++ evs
    ∧ tool_run w (web_search_tool self) (MkInput q1 7 5 500)
        (log ++ [status_0] ++ [searching_info q1]) evsA dA
    ∧ tool_run w (web_search_tool self) (MkInput q2 14 5 500)
        ((log ++ [status_0] ++ search_events q1 evsA dA) ++ [searching_info q2])
        evsB dB
    ∧ st_shown st_info searching
      = ["Searching for: '" +:+ q1 +:+ "'..."; "Searching for: '" +:+ q2 +:+ "'..."]
    ∧ agent_events searching = []
    ∧ (∀ req, req ∈ exa_requests searching →
         Exa.num_results req = 5
         ∧ ((Exa.query req = q1
             ∧ ∃ l, date_cutoff w l 7 = Returned (Exa.start_published_date req))
            ∨ (Exa.query req = q2
               ∧ ∃ l, date_cutoff w l 14 = Returned (Exa.start_published_date req))))
    ∧ (length (exa_requests searching) ≤ 2)%nat
    ∧ (∃ out rest,
         evs = status_1
               :: asked Researcher (research_message topic (merged dA dB)) out
               :: rest)
    ∧ merged dA dB
      = search_summary_header
        +:+ Block.part "" (handed_on dA) +:+ Block.part Str.nl (handed_on dB)
    ∧ ∀ d lead, d = handed_on dA ∨ d = handed_on dB →
        WebSearchOutput.success d = Some true →
        ∃ l, WebSearchOutput.results d = Some (Some l)
             ∧ Block.part lead d
               = lead +:+ Block.heading d +:+ Block.join (Block.rendered d)
             ∧ length (Block.rendered d) = length l
             ∧ ∀ i r, l !! i = Some r →
                      Block.rendered d !! i = Some (Block.lines i r).
Proof.
  destruct (run_pipeline_events w self topic log)
    as (evsA & dA & evsB & dB & evs & pre & Hlog & Hpre & Hquiet & HtA & HtB & Hst).
  exists evsA, dA, evsB, dB, evs. cbv zeta.
  fold (primary_query topic) (secondary_query topic).
  change (MkInput (primary_query topic) 7 5 500)
    with (search_input (primary_query topic) 7).
  change (MkInput (secondary_query topic) 14 5 500)
    with (search_input (secondary_query topic) 14).
  rewrite <- Hpre.
  split; [exact Hlog|]. split; [exact HtA|]. split; [exact HtB|].
  split.
  { rewrite Hpre, !st_shown_app.
    by rewrite (search_events_info _ _ _ _ _ _ _ HtA),
               (search_events_info _ _ _ _ _ _ _ HtB). }
  split; [by apply quiet_agent_events|].
  assert (Hreq : exa_requests pre = exa_requests evsA ++ exa_requests evsB).
  { rewrite Hpre, !exa_requests_app.
    by rewrite (search_events_requests _ _ _ _ _ _ _ HtA),
               (search_events_requests _ _ _ _ _ _ _ HtB). }
  split.
  { intros req Hin. rewrite Hreq in Hin. apply elem_of_app in Hin as [Hin|Hin].
    - destruct (tool_run_requests _ _ _ _ _ _ HtA) as [[Hnone _]|(c & Hc & _ & Hone)].
      + rewrite Hnone in Hin. by apply elem_of_nil in Hin.
      + rewrite Hone in Hin. apply list_elem_of_singleton in Hin as ->.
        split; [reflexivity|]. left. split; [reflexivity|]. by eexists.
    - destruct (tool_run_requests _ _ _ _ _ _ HtB) as [[Hnone _]|(c & Hc & _ & Hone)].
      + rewrite Hnone in Hin. by apply elem_of_nil in Hin.
      + rewrite Hone in Hin. apply list_elem_of_singleton in Hin as ->.
        split; [reflexivity|]. right. split; [reflexivity|]. by eexists. }
  split.
  { rewrite Hreq, length_app.
    destruct (tool_run_requests _ _ _ _ _ _ HtA) as [[-> _]|(? & _ & _ & ->)];
      destruct (tool_run_requests _ _ _ _ _ _ HtB) as [[-> _]|(? & _ & _ & ->)];
      simpl; lia. }
  split; [by eapply stages_run_starts|].
  split; [reflexivity|].
  intros d lead [->| ->] Hs.
  - destruct (handed_on_part _ _ _ _ _ _ lead HtA)
      as [(_ & l & Hl & _ & Hp & Hn & Hb)|(Hf & _)]; [|congruence].
    by exists l.
  - destruct (handed_on_part _ _ _ _ _ _ lead HtB)
      as [(_ & l & Hl & _ & Hp & Hn & Hb)|(Hf & _)]; [|congruence].
    by exists l.
Qed.

Lemma quiet_has_no_agent_run l who m h out :
  Forall (λ ev, is_agent_run ev = false) l → EvAgentRun who m h out ∉ l.
Proof.
  intros Hq Hin. rewrite Forall_forall in Hq.
  apply Hq in Hin. discriminate.
Qed.

(** The insights expert is only ever called after the researcher returned,
    with the message built from what the researcher returned. *)
Lemma stages_run_insights w self topic summary log evs o m h out :
  stages_run w self topic summary log evs o →
  EvAgentRun InsightsExpert m h out ∈ evs →
  ∃ r1,
    asked Researcher (research_message topic summary) (Returned r1) ∈ evs
    ∧ m = ""
    ∧ h = [ChatEntry "user" (insights_message topic (response_text r1) summary)].
Proof.
  destruct 1; intros Hin;
    repeat match goal with x := _ |- _ => subst x end;
    unfold asked in *;
    repeat (rewrite ?elem_of_app, ?elem_of_cons, ?elem_of_nil in Hin);
    repeat match goal with
           | H : _ ∨ _ |- _ => destruct H
           | H : False |- _ => destruct H
           | H : status_1 = _ |- _ => discriminate H
           | H : _ = status_1 |- _ => discriminate H
           | H : _ = status_2 |- _ => discriminate H
           | H : _ = status_3 |- _ => discriminate H
           | H : _ = status_4 |- _ => discriminate H
           | H : EvAgentRun _ _ _ _ = EvAgentRun _ _ _ _ |- _ =>
               inversion H; clear H; subst
           end;
    exists r1; (split; [|by split]);
    repeat (rewrite ?elem_of_app, ?elem_of_cons); tauto.
Qed.

(** Finds the part of a concatenation that the goal says it contains. *)
Ltac find_part :=
  solve [ repeat first [ apply contains_here | apply contains_end
                       | apply contains_app_r ] ].

(** The stages, call by call: each stage is asked on the log as it stands,
    and what it answers decides whether the next one is asked. *)
Lemma stages_run_chain w self topic summary log evs o :
  stages_run w self topic summary log evs o →
  let m1 := research_message topic summary in
  match answer w (log ++ [status_1]) Researcher (researcher self) m1 with
  | Raised e => evs = [status_1; asked Researcher m1 (Raised e)] ∧ o = Raised e
  | Returned r1 =>
      let m2 := insights_message topic (response_text r1) summary in
      let evs1 := [status_1; asked Researcher m1 (Returned r1); status_2] in
      match answer w (log ++ evs1) InsightsExpert (insights_expert self) m2 with
      | Raised e =>
          evs = evs1 ++ [asked InsightsExpert m2 (Raised e)] ∧ o = Raised e
      | Returned r2 =>
          let m3 := writing_message topic (response_text r2) in
          let evs2 := evs1 ++ [asked InsightsExpert m2 (Returned r2); status_3] in
          match answer w (log ++ evs2) Writer (writer self) m3 with
          | Raised e => evs = evs2 ++ [asked Writer m3 (Raised e)] ∧ o = Raised e
          | Returned r3 =>
              let m4 := editing_message topic (response_text r3) in
              let evs3 := evs2 ++ [asked Writer m3 (Returned r3); status_4] in
              evs = evs3 ++ [asked Editor m4
                               (answer w (log ++ evs3) Editor (editor self) m4)]
          end
      end
  end.
Proof.
  destruct 1;
    repeat match goal with x := _ |- _ => subst x end;
    cbv zeta;
    repeat (match goal with
            | H : answer _ _ _ _ _ = _ |- _ => rewrite H
            end; cbv beta iota zeta);
    done.
Qed.

(** C7. After the two searches the researcher is asked, with the message
    built from the topic and the merged search context. If its call raises,
    the run ends there and the insights expert is never asked. If it
    answers an object, the insights expert is asked next, once, with the
    message built from the topic, the text of that object and the merged
    context. That message holds the topic, the whole research text and the
    first 1000 characters of the context, and nothing of the context past
    them has any influence on it. *)
Theorem insights_directive_contents (w : world) (self : NewsletterAgents)
    (topic : string) (log : list event) :
  ∃ evsA dA evsB dB evs,
    let q1 := primary_query topic in
    let q2 := secondary_query topic in
    let searching :=
      [status_0] ++ search_events q1 evsA dA ++ search_events q2 evsB dB in
    let summary := merged dA dB in
    let m1 := research_message topic summary in
    let out1 :=
      agent_run w (log ++ searching ++ [status_1]) Researcher
        (config (researcher self)) "" [ChatEntry "user" m1] in
    (run_pipeline w self topic log).2 = log ++ searching ++ evs
    ∧ tool_run w (web_search_tool self) (search_input q1 7)
        (log ++ [status_0] ++ [searching_info q1]) evsA dA
    ∧ tool_run w (web_search_tool self) (search_input q2 14)
        ((log ++ [status_0] ++ search_events q1 evsA dA) ++ [searching_info q2])
        evsB dB
    ∧ (∀ e, out1 = Raised e → evs = [status_1; asked Researcher m1 (Raised e)])
    ∧ (∀ r1, out1 = Returned r1 →
         let m2 := insights_message topic (response_text r1) summary in
         let evs1 := [status_1; asked Researcher m1 (Returned r1); status_2] in
         let out2 :=
           agent_run w (log ++ searching ++ evs1) InsightsExpert
             (config (insights_expert self)) "" [ChatEntry "user" m2] in
         (∃ rest, evs = evs1 ++ [asked InsightsExpert m2 out2] ++ rest)
         ∧ Str.contains topic m2
         ∧ Str.contains (py_str (response_text r1)) m2
         ∧ Str.contains (Str.slice_to 1000 summary) m2
         ∧ ∀ summary',
             Str.slice_to 1000 summary' = Str.slice_to 1000 summary →
             insights_message topic (response_text r1) summary' = m2)
    ∧ (∀ m h out, EvAgentRun InsightsExpert m h out ∈ searching ++ evs →
         ∃ r1, out1 = Returned r1
               ∧ m = ""
               ∧ h = [ChatEntry "user"
                        (insights_message topic (response_text r1) summary)])
    ∧ (String.length (Str.slice_to 1000 summary) ≤ 1000)%nat
    ∧ Str.starts_with (Str.slice_to 1000 summary) summary
    ∧ ∀ research,
        Str.contains topic (insights_message topic research summary)
        ∧ Str.contains (py_str research) (insights_message topic research summary)
        ∧ Str.contains (Str.slice_to 1000 summary)
            (insights_message topic research summary)
        ∧ ∀ summary',
            Str.slice_to 1000 summary' = Str.slice_to 1000 summary →
            insights_message topic research summary'
            = insights_message topic research summary.
Proof.
  destruct (run_pipeline_events w self topic log)
    as (evsA & dA & evsB & dB & evs & pre & Hlog & Hpre & Hquiet & HtA & HtB & Hst).
  exists evsA, dA, evsB, dB, evs. cbv zeta. rewrite <- Hpre.
  assert (Hcontents : ∀ research,
    Str.contains topic (insights_message topic research (merged dA dB))
    ∧ Str.contains (py_str research)
        (insights_message topic research (merged dA dB))
    ∧ Str.contains (Str.slice_to 1000 (merged dA dB))
        (insights_message topic research (merged dA dB))
    ∧ ∀ summary',
        Str.slice_to 1000 summary' = Str.slice_to 1000 (merged dA dB) →
        insights_message topic research summary'
        = insights_message topic research (merged dA dB)).
  { intros research. unfold insights_message.
    split; [find_part|]. split; [find_part|]. split; [find_part|].
    by intros summary' ->. }
  pose proof (stages_run_chain _ _ _ _ _ _ _ Hst) as Hchain.
  cbv zeta in Hchain. unfold answer in Hchain. cbn [app] in Hchain.
  rewrite !(app_assoc log pre). cbn [app].
  split; [by rewrite <- app_assoc|]. split; [exact HtA|]. split; [exact HtB|].
  split.
  { intros e He. rewrite He in Hchain. by destruct Hchain. }
  split.
  { intros r1 Hr1. rewrite Hr1 in Hchain.
    split; [|apply Hcontents].
    rewrite !(app_assoc log pre).
    destruct (agent_run w _ InsightsExpert _ _ _) as [r2|e].
    - destruct (agent_run w _ Writer _ _ _) as [r3|e];
        [|destruct Hchain as [Hchain _]]; rewrite Hchain; by eexists.
    - destruct Hchain as [-> _]. by exists []. }
  split.
  { intros m h out Hin. apply elem_of_app in Hin as [Hin|Hin].
    { by apply quiet_has_no_agent_run in Hin. }
    destruct (stages_run_insights _ _ _ _ _ _ _ _ _ _ Hst Hin) as (r1 & Hr & -> & ->).
    exists r1. split; [|done].
    destruct (agent_run w _ Researcher _ _ _) as [r|e].
    - destruct (agent_run w _ InsightsExpert _ _ _) as [r2|e];
        [destruct (agent_run w _ Writer _ _ _) as [r3|e]|];
        try match type of Hchain with
            | _ ∧ _ => destruct Hchain as [Hchain _]
            end;
        subst evs; unfold asked in Hr;
        repeat (rewrite ?elem_of_app, ?elem_of_cons, ?elem_of_nil in Hr);
        repeat match goal with
               | H : _ ∨ _ |- _ => destruct H
               | H : False |- _ => destruct H
               | H : EvAgentRun _ _ _ _ = _ |- _ =>
                   first [discriminate H | inversion H; clear H; subst]
               end; reflexivity.
    - destruct Hchain as [-> _].
      unfold asked in Hr.
      repeat (rewrite ?elem_of_cons, ?elem_of_nil in Hr).
      repeat match goal with
             | H : _ ∨ _ |- _ => destruct H
             | H : False |- _ => destruct H
             | H : EvAgentRun _ _ _ _ = _ |- _ => discriminate H
             end. }
  split.
  { pose proof (slice_to_length 1000 (merged dA dB)). lia. }
  split; [apply slice_to_prefix|].
  apply Hcontents.
Qed.

(** [manual_search] returns a dict whatever the tool's [run] does: an
    exception of [run] is caught and becomes a failure dict. *)
Lemma manual_search_via_returns run query days log :
  ∃ d log',
    manual_search_via run query days log = (Returned d, log')
    ∧ ∀ e l, run (search_input query days) (log ++ [searching_info query])
             = (Raised e, l) →
             WebSearchOutput.success d = Some false
             ∧ WebSearchOutput.error_message d = Some (Some e)
             ∧ WebSearchOutput.results d = None.
Proof.
  unfold manual_search_via, try_except, mbind, M_bind, st, emit.
  fold (searching_info query). fold (search_input query days).
  destruct (run (search_input query days) (log ++ [searching_info query]))
    as [[d|e] l] eqn:Hrun.
  - destruct (default false (WebSearchOutput.success d));
      eexists _, _; (split; [reflexivity|]); intros; discriminate.
  - eexists _, _. split; [reflexivity|].
    intros e' l' Heq. inversion Heq; subst. done.
Qed.

Lemma stages_run_all_return w self topic summary log evs o :
  (∀ l who cfg m h, is_raised (agent_run w l who cfg m h) = false) →
  stages_run w self topic summary log evs o →
  ∃ d, o = Returned d ∧ agent_roles evs = stage_order.
Proof.
  intros Hall Hst.
  destruct Hst;
    try match goal with
        | H : answer _ ?l ?who ?a ?m = Raised _ |- _ =>
            pose proof (Hall l who (config a) "" [ChatEntry "user" m]) as Hno;
            unfold answer in H; rewrite H in Hno; discriminate Hno
        end.
  eexists. split; reflexivity.
Qed.

(** C10. Whatever the two searches do, stage 1 is reached: the researcher
    is called with the message built from the merged context. A search
    whose tool run failed adds nothing to that context. If no agent call
    raises, all four stages run and the result is returned. And
    [manual_search] catches an exception of the tool: it returns a failure
    dict instead. *)
Theorem search_failure_does_not_stop (w : world) (self : NewsletterAgents)
    (topic : string) (log : list event) :
  ∃ evsA dA evsB dB evs,
    let q1 := primary_query topic in
    let q2 := secondary_query topic in
    let searching :=
      [status_0] ++ search_events q1 evsA dA ++ search_events q2 evsB dB in
    (run_pipeline w self topic log).2 = log ++ searching ++ evs
    ∧ tool_run w (web_search_tool self) (search_input q1 7)
        (log ++ [status_0] ++ [searching_info q1]) evsA dA
    ∧ tool_run w (web_search_tool self) (search_input q2 14)
        ((log ++ [status_0] ++ search_events q1 evsA dA) ++ [searching_info q2])
        evsB dB
    ∧ (∃ out rest,
         evs = status_1
               :: asked Researcher (research_message topic (merged dA dB)) out
               :: rest)
    ∧ (WebSearchOutput.success dA = Some false →
       Block.part "" (handed_on dA) = "")
    ∧ (WebSearchOutput.success dB = Some false →
       Block.part Str.nl (handed_on dB) = "")
    ∧ (WebSearchOutput.success dA = Some false →
       WebSearchOutput.success dB = Some false →
       merged dA dB = search_summary_header)
    ∧ ((∀ l who cfg m h, is_raised (agent_run w l who cfg m h) = false) →
       ∃ d, (run_pipeline w self topic log).1 = Returned d
            ∧ agent_roles evs = stage_order)
    ∧ ∀ run query days l,
        ∃ d l',
          manual_search_via run query days l = (Returned d, l')
          ∧ ∀ e l'', run (search_input query days) (l ++ [searching_info query])
                     = (Raised e, l'') →
                     WebSearchOutput.success d = Some false
                     ∧ WebSearchOutput.error_message d = Some (Some e)
                     ∧ WebSearchOutput.results d = None.
Proof.
  destruct (run_pipeline_events w self topic log)
    as (evsA & dA & evsB & dB & evs & pre & Hlog & Hpre & Hquiet & HtA & HtB & Hst).
  exists evsA, dA, evsB, dB, evs. cbv zeta. rewrite <- Hpre.
  assert (Hpart : ∀ lead d, WebSearchOutput.success d = Some false →
                            Block.part lead (handed_on d) = "").
  { intros lead d Hs. unfold Block.part, handed_on. rewrite Hs. simpl. done. }
  split; [exact Hlog|]. split; [exact HtA|]. split; [exact HtB|].
  split; [by eapply stages_run_starts|].
  split; [apply Hpart|]. split; [apply Hpart|].
  split.
  { intros HA HB. unfold merged. rewrite (Hpart _ _ HA), (Hpart _ _ HB).
    by rewrite !str_app_nil_r. }
  split.
  { intros Hall. by eapply stages_run_all_return. }
  apply manual_search_via_returns.
Qed.

(** C10 on a world whose search provider cannot be reached: both searches
    fail, the context is the bare header, and the four stages run. *)
Example offline_run :
  agent_roles
    (run_pipeline Scenario.offline Scenario.agents Scenario.topic []).2
  = stage_order
  ∧ (run_pipeline Scenario.offline Scenario.agents Scenario.topic []).1
    = Returned Scenario.expected
  ∧ agent_events
      (run_pipeline Scenario.offline Scenario.agents Scenario.topic []).2 !! 0%nat
    = Some (asked Researcher
              (research_message Scenario.topic search_summary_header)
              (Returned (Scenario.reply Researcher))).
Proof. repeat split; vm_compute; reflexivity. Qed.

(** C10 on the same world, by the theorem: no agent raises there, so the
    run returns. *)
Lemma search_failure_does_not_stop_witness :
  ∃ d, (run_pipeline Scenario.offline Scenario.agents Scenario.topic []).1
       = Returned d.
Proof.
  destruct (search_failure_does_not_stop Scenario.offline Scenario.agents
              Scenario.topic [])
    as (evsA & dA & evsB & dB & evs & _ & _ & _ & _ & _ & _ & _ & Hall & _).
  destruct (Hall (λ _ _ _ _ _, eq_refl)) as (d & Hd & _).
  exists d. exact Hd.
Defined.

(** C6. The researcher and the insights expert are configured with the
    web search tool, the writer and the editor with no tool and no tool
    policy. The system prompts of the first two tell the model to use the
    tool, and the messages of stages 1 and 2 tell it that it may search
    again. *)
Theorem tools_by_stage (environ : gmap string string) (model_name : string)
    (api_key exa_api_key : option string) (topic summary : string)
    (research : pyval) :
  let self := NewsletterAgents_init environ model_name api_key exa_api_key in
  let again := "use the search_and_contents tool with a specific query." in
  tools (config (researcher self)) = Some [web_search_tool self]
  ∧ tools (config (insights_expert self)) = Some [web_search_tool self]
  ∧ tools (config (writer self)) = None
  ∧ tools (config (editor self)) = None
  ∧ tool_choice (provider_config (config (researcher self))) = Some "auto"
  ∧ tool_choice (provider_config (config (insights_expert self))) = Some "auto"
  ∧ tool_choice (provider_config (config (writer self))) = None
  ∧ tool_choice (provider_config (config (editor self))) = None
  ∧ tool_sys_msg (config (writer self)) = None
  ∧ tool_sys_msg (config (editor self)) = None
  ∧ Str.contains "use the web_search_tool tool"
      (core_instructions (prompt_builder (config (researcher self))))
  ∧ Str.contains "use the web_search_tool tool"
      (core_instructions (prompt_builder (config (insights_expert self))))
  ∧ Str.contains again (research_message topic summary)
  ∧ Str.contains again (insights_message topic research summary).
Proof.
  cbv zeta. repeat (split; [reflexivity|]).
  split; [by exists "Your PRIMARY task is to ", " to find the latest information. THIS IS CRITICAL: You MUST make at least one call to the web_search_tool tool - it is your main job. Without using this tool, your response will be incomplete and outdated. After using the search tool, provide comprehensive research with reliable sources. Include exact search queries you used and summarize the most relevant findings."|].
  split; [by exists "Your PRIMARY task is to ", " to verify and expand upon the research provided. THIS IS CRITICAL: You MUST make at least one call to the web_search_tool tool - it is your main job. Without using this tool, your insights will be incomplete. After searching, provide detailed analysis on the significance, applications, and future potential of each development."|].
  split.
  - unfold research_message.
    do 10 apply contains_app_r.
    by exists "If you need more specific information, ", "".
  - unfold insights_message.
    do 16 apply contains_app_r.
    by exists "If you need any specific information, ", "".
Qed.

(** * Part III: beyond the claims *)

(** * More about the search tool *)

Lemma falsy_optional (k : option string) :
  truthy (of_optional k) = false ↔ k = None ∨ k = Some "".
Proof.
  destruct k as [[|a s]|]; simpl; split; try tauto; try done;
    intros [H|H]; discriminate.
Qed.

Lemma py_or_falsy (a b : option string) :
  truthy (of_optional (py_or a b)) = false
  ↔ truthy (of_optional a) = false ∧ truthy (of_optional b) = false.
Proof.
  unfold py_or. destruct (truthy (of_optional a)) eqn:Ha.
  - rewrite Ha. split; [done|]. by intros [? _].
  - tauto.
Qed.

Lemma failure_dict_inj a b : failure_dict a = failure_dict b → a = b.
Proof. intros H. by inversion H. Qed.

Lemma error_is_not_no_key e : "Error performing search: " +:+ e ≠ no_key_message.
Proof. discriminate. Qed.

(** X1. A tool built from [api_key] in the environment [environ] answers
    with the no-key failure exactly when neither the argument nor the
    variable [EXA_API_KEY] holds a non-empty text; it then consults neither
    the clock nor the provider and prints nothing. *)
Theorem no_key_failure_iff (w : world) (environ : gmap string string)
    (api_key : option string) (input_data : WebSearchInputSchema)
    (log : list event) :
  let self := WebSearchTool_init environ api_key in
  let run := WebSearchTool_run w self input_data log in
  (run.1 = Returned (failure_dict no_key_message)
   ↔ (api_key = None ∨ api_key = Some "")
     ∧ (environ !! "EXA_API_KEY" = None ∨ environ !! "EXA_API_KEY" = Some ""))
  ∧ (run.1 = Returned (failure_dict no_key_message) → run.2 = log).
Proof.
  intros self run.
  destruct (WebSearchTool_run_spec w self input_data log) as (evs & d & Hrun & Htool).
  unfold run. rewrite Hrun. simpl.
  rewrite <- !falsy_optional, <- py_or_falsy.
  change (py_or api_key (environ !! "EXA_API_KEY")) with (tool_api_key self).
  inversion Htool as [Hkey|e Hkey Hdate|cutoff e req line Hkey Hdate Hsearch
                     |cutoff found req line fr Hkey Hdate Hsearch]; subst.
  - split; [by split|]. intros _. by rewrite app_nil_r.
  - split; [split|]; try congruence; intros H; exfalso;
      apply (error_is_not_no_key e), failure_dict_inj; congruence.
  - split; [split|]; try congruence; intros H; exfalso;
      apply (error_is_not_no_key e), failure_dict_inj; congruence.
  - split; [split|]; try congruence; intros H; discriminate H.
Qed.

Lemma py_or_idem (a b : option string) : py_or (py_or a b) b = py_or a b.
Proof.
  unfold py_or. destruct (truthy (of_optional a)) eqn:Ha.
  - by rewrite Ha.
  - by destruct (truthy (of_optional b)).
Qed.

Lemma truthy_key_default (k : option string) :
  truthy (of_optional k) = true → Some (default "" k) = k.
Proof. by destruct k. Qed.

(** The one request of a tool run that has a key and a cutoff date. *)
Lemma tool_run_request w self input_data log evs d k cutoff :
  tool_run w self input_data log evs d →
  tool_api_key self = Some k → k ≠ "" →
  date_cutoff w log (days_ago input_data) = Returned cutoff →
  let req := search_call k input_data cutoff in
  let line := EvPrint (searching_line input_data) in
  exa_requests evs = [req]
  ∧ ∃ rest,
      evs = [line; EvExaSearch req (search_and_contents w (log ++ [line]) req)]
            ++ rest.
Proof.
  intros Htool Hk Hne Hdate.
  assert (Htruthy : truthy (of_optional (tool_api_key self)) = true).
  { rewrite Hk. by destruct k. }
  destruct Htool as [Hno|e Hyes Hraised|c e req' line' Hyes Hc Hout
                     |c found req' line' formatted Hyes Hc Hout]; cbv zeta.
  - rewrite Htruthy in Hno. discriminate Hno.
  - rewrite Hdate in Hraised. discriminate Hraised.
  - assert (c = cutoff) as -> by congruence.
    subst req' line'. rewrite Hk in *. simpl default in *.
    rewrite Hout. split; [reflexivity|]. by eexists.
  - assert (c = cutoff) as -> by congruence.
    subst req' line' formatted. rewrite Hk in *. simpl default in *.
    rewrite Hout. split; [reflexivity|]. by eexists.
Qed.

(** X2. The search key of a [NewsletterAgents] is the [exa_api_key]
    argument when that is a non-empty text, whatever the environment
    holds, and the variable [EXA_API_KEY] otherwise; the second fallback, in
    the tool's constructor, changes nothing. A [manual_search] of these
    agents makes no remote request when there is no key. With a key, once
    the clock gave the cutoff date, it makes exactly one, right after the
    two announcements: it carries the key, the query and the cutoff date,
    asks for five results of at most 5000 characters without HTML tags,
    and uses the autoprompt; what follows depends on the provider's
    answer to it. *)
Theorem manual_search_requests_carry_the_key (w : world)
    (environ : gmap string string) (model_name : string)
    (api_key exa_api_key : option string) (query : string) (days : Z)
    (log : list event) :
  let self := NewsletterAgents_init environ model_name api_key exa_api_key in
  let key := py_or exa_api_key (environ !! "EXA_API_KEY") in
  let line := EvPrint (searching_line (search_input query days)) in
  tool_api_key (web_search_tool self) = key
  ∧ (∀ k, exa_api_key = Some k → k ≠ "" → key = Some k)
  ∧ (exa_api_key = None ∨ exa_api_key = Some "" → key = environ !! "EXA_API_KEY")
  ∧ ∃ evs d,
      manual_search w self query days log = (Returned d, log ++ evs)
      ∧ (∀ req, req ∈ exa_requests evs →
           Some (Exa.api_key req) = key
           ∧ Exa.query req = query
           ∧ Exa.num_results req = 5
           ∧ Exa.text_max_characters req = 5000
           ∧ Exa.text_include_html_tags req = false
           ∧ Exa.use_autoprompt req = true)
      ∧ (key = None ∨ key = Some "" → exa_requests evs = [])
      ∧ ∀ k cutoff,
          key = Some k → k ≠ "" →
          date_cutoff w (log ++ [searching_info query]) days = Returned cutoff →
          let req :=
            {| Exa.api_key := k;
               Exa.query := query;
               Exa.use_autoprompt := true;
               Exa.start_published_date := cutoff;
               Exa.num_results := 5;
               Exa.text_include_html_tags := false;
               Exa.text_max_characters := 5000 |} in
          exa_requests evs = [req]
          ∧ ∃ rest,
              evs = [searching_info query; line;
                     EvExaSearch req
                       (search_and_contents w
                          (log ++ [searching_info query; line]) req)]
                    ++ rest.
Proof.
  intros self key line.
  assert (Hkey : tool_api_key (web_search_tool self) = key).
  { unfold self, key. simpl. apply py_or_idem. }
  split; [exact Hkey|]. split.
  { intros k -> Hk. unfold key, py_or. simpl. by destruct k. }
  split.
  { intros [-> | ->]; reflexivity. }
  destruct (manual_search_spec w self query days log) as (evs & d & Htool & Hrun).
  exists (search_events query evs d), (handed_on d). split; [exact Hrun|].
  rewrite (search_events_requests _ _ _ _ _ _ _ Htool).
  split; [|split].
  - intros req Hin.
    destruct (tool_run_requests _ _ _ _ _ _ Htool) as [[Hnone _]|(c & _ & Ht & Hone)].
    + rewrite Hnone in Hin. by apply elem_of_nil in Hin.
    + rewrite Hone in Hin. apply list_elem_of_singleton in Hin as ->.
      rewrite Hkey in Ht |- *. split; [by apply truthy_key_default|]. done.
  - intros Hnokey.
    destruct (tool_run_requests _ _ _ _ _ _ Htool) as [[Hnone _]|(c & _ & Ht & _)];
      [exact Hnone|].
    rewrite Hkey in Ht. by destruct Hnokey as [Hk | Hk]; rewrite Hk in Ht.
  - intros k cutoff Hk Hne Hdate. cbv zeta.
    rewrite <- Hkey in Hk.
    destruct (tool_run_request _ _ _ _ _ _ k cutoff Htool Hk Hne Hdate)
      as (Hone & rest & Hevs).
    split; [exact Hone|].
    exists (rest ++ [shown_after d]). unfold search_events.
    rewrite <- (app_assoc log) in Hevs. cbn [app] in Hevs.
    rewrite Hevs. reflexivity.
Qed.

(** X3. A successful run of the tool returns what the provider found,
    entry by entry and in the provider's order: same length (no cap, no
    filter, no reordering), and entry [i] keeps the title, the url and the
    publish date of result [i], with the preview made of its text. The
    dict echoes the query, and [total_results_found] counts the provider's
    results. *)
Theorem results_follow_the_provider (w : world) (self : WebSearchTool)
    (input_data : WebSearchInputSchema) (log : list event)
    (d : WebSearchOutput.dict) :
  (WebSearchTool_run w self input_data log).1 = Returned d →
  WebSearchOutput.success d = Some true →
  ∃ req found formatted,
    EvExaSearch req (Returned found) ∈ (WebSearchTool_run w self input_data log).2
    ∧ WebSearchOutput.results d = Some (Some formatted)
    ∧ length formatted = length found
    ∧ WebSearchOutput.total_results_found d = Some (length found)
    ∧ WebSearchOutput.search_query d = Some (search_query input_data)
    ∧ ∀ i r, found !! i = Some r →
        ∃ f, formatted !! i = Some f
             ∧ WebSearchResult.title f = Exa.title r
             ∧ WebSearchResult.url f = Exa.url r
             ∧ WebSearchResult.published_date f = Exa.published_date r
             ∧ WebSearchResult.content_preview f
               = content_preview_of input_data (Exa.text r).
Proof.
  destruct (WebSearchTool_run_spec w self input_data log) as (evs & d' & Hrun & Htool).
  rewrite Hrun. simpl. intros [= <-] Hs.
  inversion Htool as [Hkey|e Hkey Hdate|cutoff e req line Hkey Hdate Hsearch
                     |cutoff found req line fr Hkey Hdate Hsearch]; subst;
    try discriminate Hs.
  exists req, found, fr. split.
  { apply elem_of_app. right. set_solver. }
  split; [reflexivity|]. split; [apply format_results_length|].
  split; [simpl; unfold fr; by rewrite format_results_length|].
  split; [reflexivity|].
  intros i r Hi. exists (format_result input_data r). split; [|done].
  unfold fr. rewrite format_results_map, list_lookup_fmap, Hi. reflexivity.
Qed.

(** X3 on the scenario: the first search finds two results. *)
Lemma results_follow_the_provider_witness :
  ∃ req found (formatted : list WebSearchResult.dict),
    EvExaSearch req (Returned found)
    ∈ (WebSearchTool_run Scenario.mock (web_search_tool Scenario.agents)
         (search_input (primary_query Scenario.topic) 7) []).2
    ∧ length formatted = 2%nat
    ∧ length found = 2%nat.
Proof.
  destruct (results_follow_the_provider Scenario.mock
              (web_search_tool Scenario.agents)
              (search_input (primary_query Scenario.topic) 7) []
              (success_dict (search_input (primary_query Scenario.topic) 7)
                 (format_results (search_input (primary_query Scenario.topic) 7)
                    [Scenario.hit_1; Scenario.hit_2])))
    as (req & found & formatted & Hin & Hres & Hlen & Htot & _).
  - vm_compute. reflexivity.
  - reflexivity.
  - exists req, found, formatted. split; [exact Hin|].
    assert (length found = 2%nat) as Hf by (simpl in Htot; congruence).
    split; [congruence|exact Hf].
Defined.

(** X4. A negative [max_preview_chars] is not refused: every non-empty
    text then counts as too long, loses its last [-max_preview_chars]
    characters (all of them when it has no more) and gets the ellipsis
    marker. The preview is then longer than [max_preview_chars] plus the
    marker. *)
Theorem negative_max_preview_chars (input_data : WebSearchInputSchema)
    (result : Exa.Result) (t : string) :
  Exa.text result = Some t →
  t ≠ "" →
  max_preview_chars input_data < 0 →
  let kept := (String.length t - Z.to_nat (- max_preview_chars input_data))%nat in
  WebSearchResult.content_preview (format_result input_data result)
  = Some (Str.take kept t +:+ ellipsis_marker)
  ∧ String.length (Str.take kept t +:+ ellipsis_marker) = (kept + 3)%nat
  ∧ max_preview_chars input_data + 3
    < Z.of_nat (String.length (Str.take kept t +:+ ellipsis_marker)).
Proof.
  intros Htext Hne Hneg kept.
  assert (Hlen : String.length (Str.take kept t +:+ ellipsis_marker)
                 = (kept + 3)%nat).
  { rewrite str_length_app, str_length_take. simpl. unfold kept. lia. }
  split; [|split; [exact Hlen|rewrite Hlen; lia]].
  unfold format_result, content_preview_of. simpl. rewrite Htext.
  destruct t as [|a t']; [done|].
  cbn [truthy Str.is_empty negb].
  destruct (Z.ltb_spec (max_preview_chars input_data)
              (Z.of_nat (String.length (String a t')))) as [_|Hge]; [|lia].
  unfold Str.slice_to.
  destruct (Z.leb_spec 0 (max_preview_chars input_data)) as [Hpos|_]; [lia|].
  do 3 f_equal. unfold kept. lia.
Qed.

(** X4 at [max_preview_chars = -1]: the last character is dropped. *)
Lemma negative_max_preview_chars_witness :
  WebSearchResult.content_preview
    (format_result (MkInput "qubits" 7 5 (-1)) Scenario.hit_1)
  = Some "A logical qubit outlives its physical qubits...".
Proof.
  refine (proj1 (negative_max_preview_chars (MkInput "qubits" 7 5 (-1))
                   Scenario.hit_1
                   "A logical qubit outlives its physical qubits." _ _ _)).
  - reflexivity.
  - discriminate.
  - reflexivity.
Defined.

(** * More about [manual_search] *)

Lemma tool_run_message w self input_data log evs d :
  tool_run w self input_data log evs d →
  WebSearchOutput.success d = Some false →
  ∃ msg, WebSearchOutput.error_message d = Some (Some msg)
         ∧ (msg = no_key_message ∨ ∃ e, msg = "Error performing search: " +:+ e).
Proof.
  destruct 1; intros Hs; try discriminate Hs; eexists; (split; [reflexivity|]);
    eauto.
Qed.

Lemma tool_run_success_flag w self input_data log evs d :
  tool_run w self input_data log evs d →
  WebSearchOutput.success d = Some true ∨ WebSearchOutput.success d = Some false.
Proof. destruct 1; auto. Qed.

(** X5. [manual_search] always returns. It shows the announcement, lets
    the tool run on the input with the query, the days, five results and
    the default preview length, and reports once on the dict that the tool
    returned. When that dict holds [success = True], the report counts its
    results and the tool's dict is returned as it is. Otherwise the report
    holds the tool's own message (the no-key message, or "Error performing
    search: " and the exception's text), and the returned dict holds
    [success = False] and that message, and no other key. The "Unknown
    error" default and the "Search error" report are never used. *)
Theorem manual_search_reports (w : world) (self : NewsletterAgents)
    (query : string) (days : Z) (log : list event) :
  let input_data :=
    {| search_query := query; days_ago := days;
       max_results := 5; max_preview_chars := 500 |} in
  let info := EvSt st_info ("Searching for: '" +:+ query +:+ "'...") in
  ∃ tool_dict tool_evs,
    WebSearchTool_run w (web_search_tool self) input_data (log ++ [info])
    = (Returned tool_dict, (log ++ [info]) ++ tool_evs)
    ∧ (∀ call, st_shown call tool_evs = [])
    ∧ ((WebSearchOutput.success tool_dict = Some true
        ∧ ∃ l,
            WebSearchOutput.results tool_dict = Some (Some l)
            ∧ WebSearchOutput.total_results_found tool_dict = Some (length l)
            ∧ WebSearchOutput.search_query tool_dict = Some query
            ∧ manual_search w self query days log
              = (Returned tool_dict,
                 log ++ [info] ++ tool_evs
                 ++ [EvSt st_success
                       ("Search successful: " +:+ pretty (length l)
                        +:+ " results found")]))
       ∨ (WebSearchOutput.success tool_dict = Some false
          ∧ ∃ msg,
              WebSearchOutput.error_message tool_dict = Some (Some msg)
              ∧ (msg = no_key_message
                 ∨ ∃ e, msg = "Error performing search: " +:+ e)
              ∧ manual_search w self query days log
                = (Returned
                     {| WebSearchOutput.success := Some false;
                        WebSearchOutput.error_message := Some (Some msg);
                        WebSearchOutput.results := None;
                        WebSearchOutput.search_query := None;
                        WebSearchOutput.total_results_found := None |},
                   log ++ [info] ++ tool_evs
                   ++ [EvSt st_error ("Search failed: " +:+ msg)]))).
Proof.
  intros input_data info.
  change input_data with (search_input query days).
  change info with (searching_info query).
  destruct (WebSearchTool_run_spec w (web_search_tool self)
              (search_input query days) (log ++ [searching_info query]))
    as (evs & d & Hrun & Htool).
  exists d, evs. split; [exact Hrun|].
  split; [intros call; by eapply tool_run_shows_nothing|].
  assert (Hms : manual_search w self query days log
                = (Returned (handed_on d),
                   log ++ [searching_info query] ++ evs ++ [shown_after d])).
  { unfold manual_search, manual_search_via, try_except, mbind, M_bind, st, emit.
    fold (searching_info query). fold (search_input query days).
    rewrite Hrun. unfold handed_on, shown_after.
    destruct (default false (WebSearchOutput.success d)); simpl;
      unfold mret, M_ret; by rewrite <- !app_assoc. }
  rewrite Hms.
  destruct (tool_run_success_flag _ _ _ _ _ _ Htool) as [Hs|Hs].
  - left. split; [exact Hs|].
    inversion Htool; subst; try discriminate Hs.
    eexists. split; [reflexivity|]. split; [reflexivity|]. split; reflexivity.
  - right. split; [exact Hs|].
    destruct (tool_run_message _ _ _ _ _ _ Htool Hs) as (msg & Hmsg & Hkind).
    exists msg. split; [exact Hmsg|]. split; [exact Hkind|].
    unfold handed_on, shown_after. by rewrite Hs, Hmsg.
Qed.

(** The merging code is not total: on a dict that claims success and holds
    [None] under [results], [len] raises. *)
Example merging_can_raise :
  add_search "" {| WebSearchOutput.success := Some true;
                   WebSearchOutput.error_message := Some None;
                   WebSearchOutput.results := Some None;
                   WebSearchOutput.search_query := Some "qubits";
                   WebSearchOutput.total_results_found := Some 0%nat |}
    search_summary_header
  = Raised "object of type 'NoneType' has no len()".
Proof. reflexivity. Qed.

(** X6. On what [manual_search] returns, the merging code of
    [run_pipeline] never raises, for any two searches: a failure dict, in
    which the tool puts [None] under [results], is skipped. The merged text
    always starts with the header. *)
Theorem merging_never_raises (w : world) (self : NewsletterAgents)
    (query_a query_b : string) (days_a days_b : Z) (log_a log_b : list event) :
  ∃ d_a d_b summary,
    (manual_search w self query_a days_a log_a).1 = Returned d_a
    ∧ (manual_search w self query_b days_b log_b).1 = Returned d_b
    ∧ merge_search_results d_a d_b = Returned summary
    ∧ Str.starts_with search_summary_header summary
    ∧ (WebSearchOutput.success d_a = Some false →
       WebSearchOutput.success d_b = Some false →
       summary = search_summary_header).
Proof.
  destruct (manual_search_spec w self query_a days_a log_a) as (ea & da & Hta & Hra).
  destruct (manual_search_spec w self query_b days_b log_b) as (eb & db & Htb & Hrb).
  exists (handed_on da), (handed_on db). eexists.
  rewrite Hra, Hrb. split; [reflexivity|]. split; [reflexivity|].
  split.
  { apply merge_search_results_ok; by eapply tool_run_handed_on_ok. }
  split; [by eexists|].
  intros Ha Hb. unfold Block.part. rewrite Ha, Hb. simpl.
  by rewrite !str_app_nil_r.
Qed.

(** * More about the merged context *)

Lemma str_take_take_le n m s : (n ≤ m)%nat → Str.take n (Str.take m s) = Str.take n s.
Proof.
  revert m s. induction n as [|n IH]; intros m s Hle; [by destruct m, s|].
  destruct m as [|m]; [lia|]. destruct s as [|a s]; [done|].
  simpl. f_equal. apply IH. lia.
Qed.

Lemma str_take_app_le n a b :
  (n ≤ String.length a)%nat → Str.take n (a +:+ b) = Str.take n a.
Proof.
  revert a. induction n as [|n IH]; intros a Hle.
  - by destruct a, b.
  - destruct a as [|c a]; simpl in Hle; [lia|].
    rewrite str_app_cons. simpl. f_equal. apply IH. lia.
Qed.

(** The first 300 characters of a preview are those of the text, when the
    tool keeps at least 300. *)
Lemma preview_prefix input_data t :
  t ≠ "" → 300 ≤ max_preview_chars input_data →
  ∃ p, content_preview_of input_data (Some t) = Some p
       ∧ Str.is_empty p = false
       ∧ Str.slice_to 300 p = Str.take 300 t.
Proof.
  intros Hne Hmax. unfold content_preview_of.
  destruct t as [|a t']; [done|]. cbn [truthy Str.is_empty negb].
  destruct (Z.ltb_spec (max_preview_chars input_data)
              (Z.of_nat (String.length (String a t')))) as [Hlt|Hge].
  - eexists. split; [reflexivity|]. split.
    + rewrite slice_to_nonneg by lia.
      destruct (Z.to_nat (max_preview_chars input_data)) eqn:Hn; [lia|done].
    + rewrite !slice_to_nonneg by lia.
      rewrite str_take_app_le by (rewrite str_length_take; lia).
      apply str_take_take_le. lia.
  - eexists. split; [reflexivity|]. split; [done|].
    by rewrite slice_to_nonneg by lia.
Qed.

(** X7. When the tool keeps at least 300 characters per preview (as with
    the 500 of [manual_search]), the block of a result with a non-empty
    text shows the first 300 characters of that text, followed by "...",
    also when the text is shorter than 300 characters and nothing was cut.
    So the tool's own cut and marker never show in the merged context. A
    result without text has no preview line. *)
Theorem rendered_preview_is_the_text_start (input_data : WebSearchInputSchema)
    (result : Exa.Result) (i : nat) (search_summary : string) :
  300 ≤ max_preview_chars input_data →
  let start :=
    search_summary
    +:+ "[Result " +:+ pretty (i + 1)%nat +:+ "]" +:+ Str.nl
    +:+ "Title: " +:+ py_str (of_optional (Exa.title result)) +:+ Str.nl
    +:+ "URL: " +:+ Exa.url result +:+ Str.nl
    +:+ "Published: " +:+ py_str (of_optional (Exa.published_date result))
    +:+ Str.nl in
  (∀ t, Exa.text result = Some t → t ≠ "" →
     render_result i (format_result input_data result) search_summary
     = start +:+ "Preview: " +:+ Str.take 300 t +:+ "..." +:+ Str.nl +:+ Str.nl)
  ∧ (Exa.text result = None ∨ Exa.text result = Some "" →
     render_result i (format_result input_data result) search_summary = start).
Proof.
  intros Hmax start. split.
  - intros t Htext Hne.
    destruct (preview_prefix input_data t Hne Hmax) as (p & Hp & Hpe & Hslice).
    unfold render_result, format_result. simpl. rewrite Htext, Hp. simpl.
    rewrite Hpe. simpl. rewrite Hslice. unfold start.
    rewrite !str_app_assoc. reflexivity.
  - intros Htext. unfold render_result, format_result. simpl.
    assert (content_preview_of input_data (Exa.text result) = None) as ->.
    { by destruct Htext as [-> | ->]. }
    simpl. unfold start. rewrite !str_app_assoc. reflexivity.
Qed.

(** X7 on a text of over 500 characters: the block ends with its first 300
    characters and one marker. *)
Lemma rendered_preview_is_the_text_start_witness :
  let long := Block.join (replicate 60 "0123456789") in
  render_result 0
    (format_result (search_input "qubits" 7)
       {| Exa.title := None; Exa.url := "u"; Exa.published_date := None;
          Exa.text := Some long |}) ""
  = "[Result 1]" +:+ Str.nl +:+ "Title: None" +:+ Str.nl +:+ "URL: u" +:+ Str.nl
    +:+ "Published: None" +:+ Str.nl
    +:+ "Preview: " +:+ Block.join (replicate 30 "0123456789") +:+ "..."
    +:+ Str.nl +:+ Str.nl.
Proof.
  cbv zeta.
  rewrite (proj1 (rendered_preview_is_the_text_start
                    (search_input "qubits" 7)
                    {| Exa.title := None; Exa.url := "u";
                       Exa.published_date := None;
                       Exa.text := Some (Block.join (replicate 60 "0123456789")) |}
                    0 "" ltac:(vm_compute; discriminate))
                 (Block.join (replicate 60 "0123456789")) eq_refl
                 ltac:(vm_compute; discriminate)).
  vm_compute. reflexivity.
Defined.

(** * More about the stages *)

(** X8. Data flows one way through the stages, and each stage decides on
    the next. After the two searches the researcher is asked, with the
    message built from the topic and the whole merged context. Each call is
    made on the log as it stands, with an empty input and a history of one
    user entry. A stage whose call raises is the last event of the run. If
    the researcher answers, the insights expert is asked next; if that
    answers, the writer is asked next, with the message built from the
    topic and the whole text of the insights expert's answer; if the writer
    answers, the editor is asked last, with the message built from the
    topic and the whole text of the writer's answer. *)
Theorem stages_hand_over (w : world) (self : NewsletterAgents)
    (topic : string) (log : list event) :
  ∃ evsA dA evsB dB evs,
    let q1 := primary_query topic in
    let q2 := secondary_query topic in
    let searching :=
      [status_0] ++ search_events q1 evsA dA ++ search_events q2 evsB dB in
    let summary := merged dA dB in
    let before := log ++ searching in
    let m1 := research_message topic summary in
    let out1 :=
      agent_run w (before ++ [status_1]) Researcher
        (config (researcher self)) "" [ChatEntry "user" m1] in
    (run_pipeline w self topic log).2 = before ++ evs
    ∧ tool_run w (web_search_tool self) (search_input q1 7)
        (log ++ [status_0] ++ [searching_info q1]) evsA dA
    ∧ tool_run w (web_search_tool self) (search_input q2 14)
        ((log ++ [status_0] ++ search_events q1 evsA dA) ++ [searching_info q2])
        evsB dB
    ∧ Str.contains topic m1
    ∧ Str.contains summary m1
    ∧ (∀ e, out1 = Raised e → evs = [status_1; asked Researcher m1 (Raised e)])
    ∧ ∀ r1, out1 = Returned r1 →
        let m2 := insights_message topic (response_text r1) summary in
        let evs1 := [status_1; asked Researcher m1 (Returned r1); status_2] in
        let out2 :=
          agent_run w (before ++ evs1) InsightsExpert
            (config (insights_expert self)) "" [ChatEntry "user" m2] in
        (∀ e, out2 = Raised e →
           evs = evs1 ++ [asked InsightsExpert m2 (Raised e)])
        ∧ ∀ r2, out2 = Returned r2 →
            let m3 := writing_message topic (response_text r2) in
            let evs2 :=
              evs1 ++ [asked InsightsExpert m2 (Returned r2); status_3] in
            let out3 :=
              agent_run w (before ++ evs2) Writer
                (config (writer self)) "" [ChatEntry "user" m3] in
            Str.contains topic m3
            ∧ Str.contains (py_str (response_text r2)) m3
            ∧ (∀ e, out3 = Raised e →
                 evs = evs2 ++ [asked Writer m3 (Raised e)])
            ∧ ∀ r3, out3 = Returned r3 →
                let m4 := editing_message topic (response_text r3) in
                let evs3 :=
                  evs2 ++ [asked Writer m3 (Returned r3); status_4] in
                let out4 :=
                  agent_run w (before ++ evs3) Editor
                    (config (editor self)) "" [ChatEntry "user" m4] in
                Str.contains topic m4
                ∧ Str.contains (py_str (response_text r3)) m4
                ∧ evs = evs3 ++ [asked Editor m4 out4].
Proof.
  destruct (run_pipeline_events w self topic log)
    as (evsA & dA & evsB & dB & evs & pre & Hlog & Hpre & Hquiet & HtA & HtB & Hst).
  exists evsA, dA, evsB, dB, evs. cbv zeta. rewrite <- Hpre.
  pose proof (stages_run_chain _ _ _ _ _ _ _ Hst) as Hchain.
  cbv zeta in Hchain. unfold answer in Hchain.
  split; [by rewrite <- app_assoc|]. split; [exact HtA|]. split; [exact HtB|].
  split; [unfold research_message; find_part|].
  split; [unfold research_message; find_part|].
  split.
  { intros e He. rewrite He in Hchain. by destruct Hchain. }
  intros r1 Hr1. rewrite Hr1 in Hchain. cbv beta iota in Hchain.
  split.
  { intros e He. rewrite He in Hchain. by destruct Hchain. }
  intros r2 Hr2. rewrite Hr2 in Hchain. cbv beta iota in Hchain.
  split; [unfold writing_message; find_part|].
  split; [unfold writing_message; find_part|].
  split.
  { intros e He. rewrite He in Hchain. by destruct Hchain. }
  intros r3 Hr3. rewrite Hr3 in Hchain. cbv beta iota in Hchain.
  split; [unfold editing_message; find_part|].
  split; [unfold editing_message; find_part|].
  exact Hchain.
Qed.

Lemma search_events_status w self input_data log query evs d :
  tool_run w self input_data log evs d →
  st_shown st_status (search_events query evs d) = [].
Proof.
  intros Htool. unfold search_events.
  rewrite !st_shown_app, (tool_run_shows_nothing _ _ _ _ _ _ _ Htool).
  unfold shown_after. by destruct (default false _).
Qed.

Lemma stages_run_status w self topic summary log evs o :
  stages_run w self topic summary log evs o →
  "Searching for recent developments..." :: st_shown st_status evs
  = take (S (length (agent_roles evs))) status_lines
  ∧ (1 ≤ length (agent_roles evs) ≤ 4)%nat
  ∧ agent_roles evs = take (length (agent_roles evs)) stage_order.
Proof. destruct 1; repeat split; simpl; lia. Qed.

(** X9. A run announces the search phase and then each stage right before
    it calls the stage's agent: the status lines shown are the first
    [n + 1] of the five, where [n] is the number of agent calls made. The
    researcher is always called, no agent is called twice, and the calls
    follow the order of the stages. *)
Theorem status_lines_follow_the_calls (w : world) (self : NewsletterAgents)
    (topic : string) (log : list event) :
  ∃ evs,
    (run_pipeline w self topic log).2 = log ++ evs
    ∧ st_shown st_status evs
      = take (S (length (agent_roles evs))) status_lines
    ∧ (1 ≤ length (agent_roles evs) ≤ 4)%nat
    ∧ agent_roles evs = take (length (agent_roles evs)) stage_order
    ∧ NoDup (agent_roles evs).
Proof.
  destruct (run_pipeline_events w self topic log)
    as (evsA & dA & evsB & dB & evs & pre & Hlog & Hpre & Hquiet & HtA & HtB & Hst).
  exists (pre ++ evs). split; [exact Hlog|].
  rewrite agent_roles_quiet_app by done.
  destruct (stages_run_status _ _ _ _ _ _ _ Hst) as (Hstatus & Hn & Horder).
  split.
  { rewrite <- Hstatus, Hpre, !st_shown_app.
    by rewrite (search_events_status _ _ _ _ (primary_query topic) _ _ HtA),
               (search_events_status _ _ _ _ (secondary_query topic) _ _ HtB). }
  split; [exact Hn|]. split; [exact Horder|].
  rewrite Horder. eapply sublist_NoDup; [|apply sublist_take].
  apply (bool_decide_unpack _). by vm_compute.
Qed.

(** * The front end *)

Section ShellFacts.

Import Shell.

Variable fe : front_end.
Variable w : world.

Lemma ShM_bind_eq {A B} (f : A → ShM B) (m : ShM A) s :
  (m ≫= f) s
  = match m s with
    | (Returned a, s') => f a s'
    | (Raised e, s') => (Raised e, s')
    end.
Proof. reflexivity. Qed.

Lemma nonempty_iff t : nonempty t = true ↔ t ≠ "".
Proof. destruct t; simpl; split; done. Qed.

Lemma nonempty_false t : nonempty t = false ↔ t = "".
Proof. destruct t; simpl; split; done. Qed.

(** [main] when the two assignments are taken: the block under the button,
    if it was pressed, and then the About box. *)
Lemma main_eq ws s :
  accepted fe ws →
  main fe w ws s
  = match (if generate_btn ws && nonempty (topic ws)
           then generate fe w ws (at_button ws s)
           else (Returned (), at_button ws s)) with
    | (Returned _, s') =>
        (Returned (), {| environ := environ s'; run_log := run_log s';
                         shown := shown s' ++ about |})
    | (Raised e, s') => (Raised e, s')
    end.
Proof.
  intros [Ho He].
  unfold main, at_button, announced, environ_after, environ_openai, about.
  destruct s as [env rl sh].
  destruct (nonempty (openai_api_key ws)) eqn:Hno;
    [apply nonempty_iff in Hno; specialize (Ho Hno)|clear Ho];
    (destruct (nonempty (exa_api_key ws)) eqn:Hne;
     [apply nonempty_iff in Hne; specialize (He Hne)|clear He]);
    destruct (generate_btn ws && nonempty (topic ws));
    cbv [mbind ShM_bind when show call setenv mret ShM_ret negb
         environ run_log shown];
    rewrite ?Ho, ?He;
    cbv [mbind ShM_bind when show call setenv mret ShM_ret negb
         environ run_log shown];
    rewrite <- ?app_assoc; cbn [app];
    try reflexivity;
    match goal with
    | |- context [generate fe w ws ?s1] =>
        destruct (generate fe w ws s1) as [[[]|e] [env' rl' sh']]
    end;
    rewrite <- ?app_assoc; reflexivity.
Qed.

(** [main] when the first assignment raises. *)
Lemma main_openai_refused ws s e :
  openai_api_key ws ≠ "" →
  putenv fe "OPENAI_API_KEY" (openai_api_key ws) = Raised e →
  main fe w ws s = (Raised e, s).
Proof.
  intros Hno Hput. apply nonempty_iff in Hno.
  unfold main. rewrite Hno.
  cbv [mbind ShM_bind when setenv]. by rewrite Hput.
Qed.

(** [main] when the second assignment raises. *)
Lemma main_exa_refused ws s e :
  (openai_api_key ws ≠ "" →
   putenv fe "OPENAI_API_KEY" (openai_api_key ws) = Returned ()) →
  exa_api_key ws ≠ "" →
  putenv fe "EXA_API_KEY" (exa_api_key ws) = Raised e →
  main fe w ws s
  = (Raised e, {| environ := environ_openai ws (environ s);
                  run_log := run_log s; shown := shown s |}).
Proof.
  intros Ho Hne Hput. apply nonempty_iff in Hne.
  unfold main, environ_openai. rewrite Hne.
  destruct s as [env rl sh].
  destruct (nonempty (openai_api_key ws)) eqn:Hno;
    [apply nonempty_iff in Hno; specialize (Ho Hno)|clear Ho];
    cbv [mbind ShM_bind when setenv mret ShM_ret environ run_log shown];
    rewrite ?Ho;
    cbv [mbind ShM_bind when setenv mret ShM_ret environ run_log shown];
    by rewrite Hput.
Qed.

Lemma getitem_eq (d : gmap string pyval) key v s :
  d !! key = Some v → getitem d key s = (Returned v, s).
Proof. intros H. unfold getitem. by rewrite H. Qed.

Lemma expander_with_eq label (d : gmap string pyval) key v s :
  d !! key = Some v →
  expander_with label d key s
  = (Returned (),
     {| environ := environ s; run_log := run_log s;
        shown := shown s ++ [Display "st.expander" (PyStr label);
                             Display "st.markdown" v] |}).
Proof.
  intros H. unfold expander_with.
  rewrite ShM_bind_eq. unfold show, call at 1.
  rewrite ShM_bind_eq, (getitem_eq _ _ v) by done.
  unfold call. cbn [environ run_log shown]. by rewrite <- app_assoc.
Qed.

(** The dict of a run that returned. *)
Lemma returned_dict self topic log d :
  (run_pipeline w self topic log).1 = Returned d →
  ∃ research insights draft final,
    d = {[ "research" := research; "insights" := insights;
           "draft" := draft; "final" := final ]}.
Proof.
  intros Hd.
  destruct (run_pipeline_events w self topic log)
    as (evsA & dA & evsB & dB & evs & pre & _ & _ & _ & _ & _ & Hst).
  rewrite Hd in Hst. inversion Hst. by eexists _, _, _, _.
Qed.

Lemma generate_raised ws s e :
  (run_pipeline w (agents_of ws (environ s)) (topic ws) (run_log s)).1 = Raised e →
  generate fe w ws s
  = (Returned (),
     {| environ := environ s;
        run_log := (run_pipeline w (agents_of ws (environ s)) (topic ws)
                      (run_log s)).2;
        shown := shown s ++ [spinner ws] ++ errors e |}).
Proof.
  intros Hrun. unfold generate, catching.
  rewrite ShM_bind_eq. unfold os_environ. fold (agents_of ws (environ s)).
  rewrite ShM_bind_eq. unfold show at 1. unfold call at 1.
  rewrite ShM_bind_eq. unfold of_run. cbn [environ run_log shown].
  destruct (run_pipeline w (agents_of ws (environ s)) (topic ws) (run_log s))
    as [o log'] eqn:Hp.
  simpl in Hrun. subst o.
  cbv [mbind ShM_bind show call mret ShM_ret environ run_log shown].
  unfold spinner, errors. by rewrite <- !app_assoc.
Qed.

Lemma generate_returned ws s research insights draft final :
  (run_pipeline w (agents_of ws (environ s)) (topic ws) (run_log s)).1
  = Returned {[ "research" := research; "insights" := insights;
                "draft" := draft; "final" := final ]} →
  ∃ t out,
    generate fe w ws s
    = (Returned (),
       {| environ := environ s;
          run_log := (run_pipeline w (agents_of ws (environ s)) (topic ws)
                        (run_log s)).2;
          shown := shown s
            ++ [spinner ws;
                Display "st.success"
                  (PyStr ("Newsletter generated in " +:+ t +:+ " seconds!"));
                Display "st.subheader" (PyStr "Your AI Newsletter");
                Display "st.markdown" final;
                DownloadButton "Download Newsletter (Markdown)" final
                  (download_file_name (topic ws)) "text/markdown" out]
            ++ match out with
               | Returned _ =>
                   if show_intermediate ws
                   then intermediate research insights draft else []
               | Raised e => errors e
               end |}).
Proof.
  intros Hrun. unfold generate, catching.
  rewrite ShM_bind_eq. unfold os_environ. fold (agents_of ws (environ s)).
  rewrite ShM_bind_eq. unfold show at 1. unfold call at 1.
  rewrite ShM_bind_eq. unfold of_run. cbn [environ run_log shown].
  destruct (run_pipeline w (agents_of ws (environ s)) (topic ws) (run_log s))
    as [o log'] eqn:Hp.
  simpl in Hrun. subst o. cbn [snd].
  rewrite ShM_bind_eq. unfold time_taken at 1.
  match goal with |- context [elapsed fe ?s1] => exists (elapsed fe s1) end.
  rewrite ShM_bind_eq. unfold show at 1. unfold call at 1.
  rewrite ShM_bind_eq. unfold show at 1. unfold call at 1.
  cbn [environ run_log shown].
  rewrite ShM_bind_eq, (getitem_eq _ "final" final) by by simplify_map_eq.
  rewrite ShM_bind_eq. unfold call at 1. cbn [environ run_log shown].
  rewrite ShM_bind_eq, (getitem_eq _ "final" final) by by simplify_map_eq.
  rewrite ShM_bind_eq. unfold st_download_button. cbn [environ run_log shown].
  match goal with |- context [download_button fe ?s1 ?a ?b] =>
    exists (download_button fe s1 a b);
    destruct (download_button fe s1 a b) as [[]|e] end.
  - unfold when. destruct (show_intermediate ws).
    + rewrite ShM_bind_eq, (expander_with_eq _ _ _ research) by by simplify_map_eq.
      rewrite ShM_bind_eq, (expander_with_eq _ _ _ insights) by by simplify_map_eq.
      rewrite (expander_with_eq _ _ _ draft) by by simplify_map_eq.
      cbn [environ run_log shown].
      unfold intermediate, spinner. rewrite <- !app_assoc. reflexivity.
    + unfold mret, ShM_ret, spinner. rewrite <- !app_assoc, app_nil_r. reflexivity.
  - cbv [mbind ShM_bind show call mret ShM_ret environ run_log shown].
    unfold errors, spinner. rewrite <- !app_assoc. reflexivity.
Qed.

Lemma generate_returns ws s :
  ∃ out rest,
    generate fe w ws s
    = (Returned (),
       {| environ := environ s;
          run_log := (run_pipeline w (agents_of ws (environ s)) (topic ws)
                        (run_log s)).2;
          shown := shown s ++ [spinner ws] ++ rest |})
    ∧ out = (run_pipeline w (agents_of ws (environ s)) (topic ws) (run_log s)).1.
Proof.
  destruct (run_pipeline w (agents_of ws (environ s)) (topic ws) (run_log s)).1
    as [d|e] eqn:Hrun.
  - destruct (returned_dict _ _ _ _ Hrun) as (r1 & r2 & r3 & r4 & ->).
    destruct (generate_returned ws s _ _ _ _ Hrun) as (t & out & ->).
    eexists _, _. split; [|reflexivity]. reflexivity.
  - rewrite (generate_raised ws s e Hrun). by eexists _, _.
Qed.

(** What [main] leaves when the two assignments are taken. *)
Lemma main_returns ws s :
  accepted fe ws →
  ∃ rest,
    main fe w ws s
    = (Returned (),
       {| environ := environ_after ws (environ s);
          run_log := if generate_btn ws && nonempty (topic ws)
                     then (run_pipeline w
                             (agents_of ws (environ_after ws (environ s)))
                             (topic ws) (run_log s)).2
                     else run_log s;
          shown := shown s ++ announced ws ++ rest ++ about |})
    ∧ (generate_btn ws && nonempty (topic ws) = false → rest = []).
Proof.
  intros Hacc. rewrite (main_eq _ _ Hacc).
  destruct (generate_btn ws && nonempty (topic ws)).
  - destruct (generate_returns ws (at_button ws s)) as (out & rest & -> & _).
    exists ([spinner ws] ++ rest). split; [|done].
    unfold at_button. cbn [environ run_log shown]. by rewrite <- !app_assoc.
  - exists []. split; [|done].
    unfold at_button. cbn [environ run_log shown app]. by rewrite <- !app_assoc.
Qed.

(** X10. [main] raises only when an assignment to [os.environ] does, and
    then with that exception, before anything is shown: at the first
    assignment with the state untouched, at the second with only the first
    variable set. When the assignments are taken it returns: each key that
    was typed is in the environment, the warnings for the missing ones are
    shown, and the button is offered, disabled exactly when the topic or
    one of the keys is empty. Unless the button reports a press and the
    topic is not empty, nothing else happens: no search, no agent call,
    and only the About box is shown after the button. *)
Theorem main_waits_for_the_button (ws : widgets) (s : screen) :
  (∀ e, openai_api_key ws ≠ "" →
        putenv fe "OPENAI_API_KEY" (openai_api_key ws) = Raised e →
        main fe w ws s = (Raised e, s))
  ∧ (∀ e, (openai_api_key ws ≠ "" →
           putenv fe "OPENAI_API_KEY" (openai_api_key ws) = Returned ()) →
          exa_api_key ws ≠ "" →
          putenv fe "EXA_API_KEY" (exa_api_key ws) = Raised e →
          main fe w ws s
          = (Raised e, {| environ := environ_openai ws (environ s);
                          run_log := run_log s; shown := shown s |}))
  ∧ (∃ disabled,
       Button "Generate Newsletter" disabled ∈ announced ws
       ∧ (disabled = true
          ↔ topic ws = "" ∨ openai_api_key ws = "" ∨ exa_api_key ws = ""))
  ∧ (accepted fe ws →
     (main fe w ws s).1 = Returned ()
     ∧ environ (main fe w ws s).2 = environ_after ws (environ s)
     ∧ (∃ rest,
          shown (main fe w ws s).2 = shown s ++ announced ws ++ rest ++ about)
     ∧ (generate_btn ws = false ∨ topic ws = "" →
        run_log (main fe w ws s).2 = run_log s
        ∧ shown (main fe w ws s).2 = shown s ++ announced ws ++ about)).
Proof.
  split; [intros e; apply main_openai_refused|].
  split; [intros e; apply main_exa_refused|].
  split.
  { exists (negb (nonempty (topic ws) && nonempty (openai_api_key ws)
                  && nonempty (exa_api_key ws))).
    split.
    + unfold announced. rewrite !elem_of_app. right. right.
      rewrite !elem_of_cons. tauto.
    + rewrite negb_true_iff, !andb_false_iff, !nonempty_false. tauto. }
  intros Hacc. destruct (main_returns ws s Hacc) as (rest & -> & Hidle).
  cbn [fst snd environ run_log shown].
  split; [done|]. split; [done|]. split; [by exists rest|].
  intros Hnot.
  assert (generate_btn ws && nonempty (topic ws) = false) as Hb.
  { destruct Hnot as [-> | ->]; [done|]. by rewrite andb_false_r. }
  rewrite Hb, (Hidle Hb). done.
Qed.


(** X12. When the assignments are taken, the button is pressed, the topic
    is not empty and the pipeline returns, [main] returns; after the
    button it shows the spinner, the elapsed time, the [final] text, and
    offers exactly that text for download, as markdown, under the name
    made from the topic. If the download button accepts it, the research,
    the insights and the draft follow, in this order, when the box was
    ticked, and nothing when it was not; if it raises, the two errors
    follow instead. The About box comes last. *)
Theorem main_shows_the_newsletter (ws : widgets) (s : screen)
    (d : gmap string pyval) :
  accepted fe ws →
  generate_btn ws = true →
  topic ws ≠ "" →
  (run_pipeline w (agents_of ws (environ_after ws (environ s))) (topic ws)
     (run_log s)).1 = Returned d →
  ∃ research insights draft final t out,
    d !! "research" = Some research
    ∧ d !! "insights" = Some insights
    ∧ d !! "draft" = Some draft
    ∧ d !! "final" = Some final
    ∧ (main fe w ws s).1 = Returned ()
    ∧ shown (main fe w ws s).2
      = shown s ++ announced ws
        ++ [spinner ws;
            Display "st.success"
              (PyStr ("Newsletter generated in " +:+ t +:+ " seconds!"));
            Display "st.subheader" (PyStr "Your AI Newsletter");
            Display "st.markdown" final;
            DownloadButton "Download Newsletter (Markdown)" final
              ("ai_newsletter_" +:+ replace_char " " "_" (topic ws) +:+ ".md")
              "text/markdown" out]
        ++ match out with
           | Returned _ =>
               if show_intermediate ws
               then intermediate research insights draft else []
           | Raised e => errors e
           end
        ++ about.
Proof.
  intros Hacc Hbtn Htopic Hrun.
  destruct (returned_dict _ _ _ _ Hrun) as (r1 & r2 & r3 & r4 & ->).
  exists r1, r2, r3, r4.
  rewrite (main_eq _ _ Hacc), Hbtn, (proj2 (nonempty_iff _) Htopic).
  cbn [andb].
  destruct (generate_returned ws (at_button ws s) _ _ _ _ Hrun) as (t & out & ->).
  exists t, out. cbn [fst snd environ run_log shown at_button].
  repeat (split; [by simplify_map_eq|]).
  by rewrite <- !app_assoc.
Qed.

(** X13. When the assignments are taken, a key typed into the sidebar is
    in the environment afterwards and an empty field leaves the variable
    as it was. The two searches with which the run started by [main]
    begins are runs of a tool that holds the Exa key that was typed,
    whatever the environment held, and the variable [EXA_API_KEY] as it
    was before when the field is empty; every remote request of these two
    runs carries that key. *)
Theorem typed_key_reaches_the_search (ws : widgets) (s : screen) :
  accepted fe ws →
  let after := environ (main fe w ws s).2 in
  let key := py_or (Some (exa_api_key ws)) (environ s !! "EXA_API_KEY") in
  (exa_api_key ws ≠ "" →
   after !! "EXA_API_KEY" = Some (exa_api_key ws) ∧ key = Some (exa_api_key ws))
  ∧ (exa_api_key ws = "" →
     after !! "EXA_API_KEY" = environ s !! "EXA_API_KEY"
     ∧ key = environ s !! "EXA_API_KEY")
  ∧ (openai_api_key ws ≠ "" →
     after !! "OPENAI_API_KEY" = Some (openai_api_key ws))
  ∧ (openai_api_key ws = "" →
     after !! "OPENAI_API_KEY" = environ s !! "OPENAI_API_KEY")
  ∧ (generate_btn ws = false ∨ topic ws = "" →
     run_log (main fe w ws s).2 = run_log s)
  ∧ (generate_btn ws = true → topic ws ≠ "" →
     ∃ evsA dA evsB dB rest,
       let q1 := primary_query (topic ws) in
       let q2 := secondary_query (topic ws) in
       let tool := {| tool_api_key := key |} in
       run_log (main fe w ws s).2
       = run_log s ++ [status_0] ++ search_events q1 evsA dA
         ++ search_events q2 evsB dB ++ rest
       ∧ tool_run w tool (search_input q1 7)
           (run_log s ++ [status_0] ++ [searching_info q1]) evsA dA
       ∧ tool_run w tool (search_input q2 14)
           ((run_log s ++ [status_0] ++ search_events q1 evsA dA)
            ++ [searching_info q2]) evsB dB
       ∧ ∀ req, req ∈ exa_requests evsA ++ exa_requests evsB →
                Some (Exa.api_key req) = key).
Proof.
  intros Hacc after key.
  destruct (main_returns ws s Hacc) as (shown_rest & Hmain & _).
  assert (Hafter : after = environ_after ws (environ s)).
  { unfold after. by rewrite Hmain. }
  assert (Hexa : environ_after ws (environ s) !! "EXA_API_KEY"
                 = if nonempty (exa_api_key ws) then Some (exa_api_key ws)
                   else environ s !! "EXA_API_KEY").
  { unfold environ_after, environ_openai.
    destruct (nonempty (exa_api_key ws)), (nonempty (openai_api_key ws));
      by simplify_map_eq. }
  assert (Hopenai : environ_after ws (environ s) !! "OPENAI_API_KEY"
                    = if nonempty (openai_api_key ws) then Some (openai_api_key ws)
                      else environ s !! "OPENAI_API_KEY").
  { unfold environ_after, environ_openai.
    destruct (nonempty (exa_api_key ws)), (nonempty (openai_api_key ws));
      by simplify_map_eq. }
  assert (Htool : web_search_tool (agents_of ws (environ_after ws (environ s)))
                  = {| tool_api_key := key |}).
  { unfold agents_of, key. simpl. unfold WebSearchTool_init. f_equal.
    rewrite py_or_idem, Hexa.
    destruct (nonempty (exa_api_key ws)) eqn:Hn; [|done].
    unfold py_or. unfold nonempty in Hn. simpl in *. by rewrite Hn. }
  rewrite Hafter, Hexa, Hopenai.
  split; [|split; [|split; [|split; [|split]]]].
  - intros Hne. rewrite (proj2 (nonempty_iff _) Hne). split; [done|].
    apply nonempty_iff in Hne. unfold key, py_or.
    unfold nonempty in Hne. simpl in *. by rewrite Hne.
  - intros He. rewrite (proj2 (nonempty_false _) He). split; [done|].
    unfold key, py_or. by rewrite He.
  - intros Hne. by rewrite (proj2 (nonempty_iff _) Hne).
  - intros He. by rewrite (proj2 (nonempty_false _) He).
  - intros Hnot. rewrite Hmain. cbn [snd run_log].
    assert (generate_btn ws && nonempty (topic ws) = false) as ->; [|done].
    destruct Hnot as [-> | ->]; [done|]. by rewrite andb_false_r.
  - intros Hbtn Htopic. rewrite Hmain. cbn [snd run_log].
    rewrite Hbtn, (proj2 (nonempty_iff _) Htopic). cbn [andb].
    destruct (run_pipeline_events w
                (agents_of ws (environ_after ws (environ s))) (topic ws)
                (run_log s))
      as (evsA & dA & evsB & dB & evs & pre & Hlog & Hpre & _ & HtA & HtB & _).
    rewrite Htool in HtA, HtB.
    exists evsA, dA, evsB, dB, evs. cbv zeta.
    split; [by rewrite Hlog, Hpre, <- !app_assoc|].
    split; [exact HtA|]. split; [exact HtB|].
    intros req Hin.
    assert (Hone : ∀ input_data l evs' d',
              tool_run w {| tool_api_key := key |} input_data l evs' d' →
              req ∈ exa_requests evs' → Some (Exa.api_key req) = key).
    { intros input_data l evs' d' Hrun Hreq.
      destruct (tool_run_requests _ _ _ _ _ _ Hrun)
        as [[Hnone _]|(c & _ & Hk & Hone)].
      - rewrite Hnone in Hreq. by apply elem_of_nil in Hreq.
      - rewrite Hone in Hreq. apply list_elem_of_singleton in Hreq as ->.
        by apply truthy_key_default. }
    apply elem_of_app in Hin as [Hin|Hin];
      [exact (Hone _ _ _ _ HtA Hin)|exact (Hone _ _ _ _ HtB Hin)].
Qed.

End ShellFacts.

Lemma plain_accepts_typed : Shell.accepted Shell.plain Shell.typed.
Proof. split; intros _; reflexivity. Qed.


(** X12 on the scenario: the newsletter shown is "F1", and the About box
    is the last thing shown. *)
Lemma main_shows_the_newsletter_witness :
  Shell.accepted Shell.plain Shell.typed
  ∧ (∃ rest,
       Shell.shown_by "st.markdown"
         (Shell.shown
            (Shell.main Shell.plain Scenario.mock Shell.typed Shell.blank).2)
       = PyStr "F1" :: rest)
  ∧ ∃ before,
      Shell.shown
        (Shell.main Shell.plain Scenario.mock Shell.typed Shell.blank).2
      = before ++ Shell.about.
Proof.
  split; [exact plain_accepts_typed|].
  destruct (main_shows_the_newsletter Shell.plain Scenario.mock
              Shell.typed Shell.blank Scenario.expected)
    as (research & insights & draft & final & t & out
        & _ & _ & _ & Hfinal & _ & Hshown).
  - exact plain_accepts_typed.
  - reflexivity.
  - discriminate.
  - vm_compute. reflexivity.
  - rewrite Hshown. vm_compute in Hfinal. injection Hfinal as <-.
    split.
    + eexists. vm_compute. reflexivity.
    + eexists. rewrite !app_assoc. reflexivity.
Defined.

(** X13 on the scenario: the key that was typed is in the environment
    after [main]. *)
Lemma typed_key_reaches_the_search_witness :
  Shell.accepted Shell.plain Shell.typed
  ∧ Shell.environ
      (Shell.main Shell.plain Scenario.mock Shell.typed Shell.blank).2
    !! "EXA_API_KEY" = Some "exa-test".
Proof.
  split; [exact plain_accepts_typed|].
  destruct (typed_key_reaches_the_search Shell.plain Scenario.mock
              Shell.typed Shell.blank plain_accepts_typed) as (Hexa & _).
  apply Hexa. discriminate.
Defined.

(** X10 at work: a key with a zero character is refused by the
    environment, and [main] raises before anything is shown. *)
Example main_refuses_a_zero_character :
  (Shell.main Shell.plain Scenario.mock Shell.mistyped Shell.blank).1
  = Raised "embedded null byte"
  ∧ Shell.shown
      (Shell.main Shell.plain Scenario.mock Shell.mistyped Shell.blank).2 = [].
Proof. split; vm_compute; reflexivity. Qed.

(** * The name of the download *)

Lemma replace_char_length a b s :
  String.length (Shell.replace_char a b s) = String.length s.
Proof. induction s as [|c s IH]; simpl; [done|]. by rewrite IH. Qed.

Lemma replace_char_get a b s : ∀ i,
  String.get i (Shell.replace_char a b s)
  = (λ c, if Ascii.eqb c a then b else c) <$> String.get i s.
Proof.
  induction s as [|c s IH]; intros i; simpl; [done|].
  destruct i as [|i]; simpl; [done|]. apply IH.
Qed.

Lemma str_get_app_l s t i :
  (i < String.length s)%nat → String.get i (s +:+ t) = String.get i s.
Proof.
  revert i. induction s as [|c s IH]; intros i Hi; simpl in Hi; [lia|].
  rewrite str_app_cons. destruct i as [|i]; simpl; [done|]. apply IH. lia.
Qed.

Lemma str_get_app_r s t i :
  String.get (String.length s + i) (s +:+ t) = String.get i t.
Proof. induction s as [|c s IH]; [done|]. rewrite str_app_cons. apply IH. Qed.

(** X14. The file offered for download is named after the topic, between
    "ai_newsletter_" and ".md", character by character, with an underscore
    for every space; so the name holds no space, and a topic without spaces
    is kept as it is. *)
Theorem download_file_name_has_no_space (topic : string) :
  String.length (Shell.download_file_name topic)
  = (14 + String.length topic + 3)%nat
  ∧ (∀ i, String.get i (Shell.download_file_name topic) ≠ Some " "%char)
  ∧ (∀ i c, String.get i topic = Some c →
       String.get (14 + i) (Shell.download_file_name topic)
       = Some (if Ascii.eqb c " " then "_"%char else c)).
Proof.
  unfold Shell.download_file_name. split; [|split].
  - rewrite !str_length_app, replace_char_length. reflexivity.
  - intros i.
    destruct (Nat.lt_ge_cases i 14) as [Hlt|Hge].
    + rewrite str_get_app_l by (simpl; lia).
      do 14 (destruct i as [|i]; [discriminate|]). simpl in Hlt. lia.
    + replace i with (String.length "ai_newsletter_" + (i - 14))%nat
        by (simpl; lia).
      rewrite str_get_app_r.
      destruct (Nat.lt_ge_cases (i - 14) (String.length topic)) as [Hin|Hout].
      * rewrite str_get_app_l by (by rewrite replace_char_length).
        rewrite replace_char_get.
        destruct (String.get (i - 14) topic) as [c|]; [|done]. simpl.
        destruct (Ascii.eqb_spec c " "); [discriminate|]. congruence.
      * replace (i - 14)%nat
          with (String.length (Shell.replace_char " " "_" topic)
                + (i - 14 - String.length topic))%nat
          by (rewrite replace_char_length; lia).
        rewrite str_get_app_r.
        generalize (i - 14 - String.length topic)%nat. intros k.
        do 3 (destruct k as [|k]; [discriminate|]). simpl. discriminate.
  - intros i c Hc.
    change (14 + i)%nat with (String.length "ai_newsletter_" + i)%nat.
    rewrite str_get_app_r, str_get_app_l.
    + by rewrite replace_char_get, Hc.
    + rewrite replace_char_length.
      destruct (Nat.lt_ge_cases i (String.length topic)) as [|Hge]; [done|].
      exfalso. revert i Hc Hge. induction topic as [|a t IH]; intros i Hc Hge.
      * by destruct i.
      * destruct i as [|i]; simpl in *; [lia|]. apply (IH i Hc). lia.
Qed.
